(** * ocrtoolz: a shallow embedding of [ocr_app.py]

    The program is a Tk application: one object ([PDFOCRApp]) holding the
    open document, the page index, the zoom level, the rendered bitmap and the
    mouse selection, with one method per button or mouse event, and a static
    class ([OCREngine]) that dispatches to three OCR backends.

    Modelling decisions, all visible in the definitions below:
    - Python [str] is a list of code points ([pystr]); [int] is [Z];
      the zoom level is a binary64 float ([PrimFloat.float]), as in Python;
      canvas coordinates are finite floats, modelled by the rationals they
      denote ([Qc]), with [int(...)] as truncation toward zero.
    - Methods are computations in a state-and-exception monad over the
      fields of the object; an exception leaves the assignments made before
      it in place, as in Python.
    - The external collaborators (PyMuPDF, PIL, the three OCR libraries, the
      import system, the file system) are the fields of the class [World];
      each may return or raise, except that a crop always yields a bitmap,
      and nothing else is assumed about them.
    - Dialog boxes, calls to the collaborators and file writes are recorded
      in the field [trace], oldest first.
    - Widgets that only present state (labels, canvas items, the Tk
      PhotoImage) are not part of the state.
    - A worker thread and the callbacks it posts with [root.after(0, ...)]
      are run to completion at the point where the thread is started, and
      [root.update()] finds no pending event: the methods run one after the
      other.
    - In a condition, a document handle that is installed counts as true. *)

From Stdlib Require Import ZArith List Bool Lia String Ascii.
From Stdlib Require Import Floats QArith Qcanon.
From Stdlib Require DecimalString DecimalPos DecimalZ Finite.
Import ListNotations.

Local Open Scope Z_scope.
Local Open Scope list_scope.

(** ** Python strings *)

Definition pystr : Type := list N.

Definition lit (s : string) : pystr :=
  map N_of_ascii (list_ascii_of_string s).

Definition NL : N := 10%N.

(** [str(n)] and [f"{n}"] for an [int]. *)
Definition str_int (n : Z) : pystr :=
  lit (DecimalString.NilZero.string_of_int (Z.to_int n)).

(** [sep.join(l)] *)
Fixpoint join (sep : pystr) (l : list pystr) : pystr :=
  match l with
  | [] => []
  | [x] => x
  | x :: rest => x ++ sep ++ join sep rest
  end.

(** [c.isspace()] for a code point: bidirectional class WS, B or S, or
    general category Zs. *)
Definition isspace (c : N) : bool :=
  ((9 <=? c) && (c <=? 13) || (28 <=? c) && (c <=? 32)
   || (c =? 133) || (c =? 160) || (c =? 5760)
   || (8192 <=? c) && (c <=? 8202)
   || (c =? 8232) || (c =? 8233) || (c =? 8239) || (c =? 8287)
   || (c =? 12288))%N.

Fixpoint lstrip (s : pystr) : pystr :=
  match s with
  | [] => []
  | c :: rest => if isspace c then lstrip rest else s
  end.

Definition rstrip (s : pystr) : pystr := rev (lstrip (rev s)).

(** [s.strip()] *)
Definition strip (s : pystr) : pystr := rstrip (lstrip s).

(** Truth value of a string: non-empty. *)
Definition truthy (s : pystr) : bool :=
  match s with [] => false | _ :: _ => true end.

Definition pystr_eqb (a b : pystr) : bool :=
  if list_eq_dec N.eq_dec a b then true else false.

(** ** Python numbers *)

(** [min(a, b)] and [max(a, b)] on floats: the first argument is kept
    unless the second is strictly smaller (larger). *)
Definition fmin (a b : float) : float := if PrimFloat.ltb b a then b else a.
Definition fmax (a b : float) : float := if PrimFloat.ltb a b then b else a.

Definition Qcltb (a b : Qc) : bool :=
  match (a ?= b)%Qc with Lt => true | _ => false end.

Definition qmin (a b : Qc) : Qc := if Qcltb b a then b else a.
Definition qmax (a b : Qc) : Qc := if Qcltb a b then b else a.

(** [int(x)] for a finite float: truncation toward zero. *)
Definition int_trunc (x : Qc) : Z := Z.quot (Qnum x) (Zpos (Qden x)).

(** [int(x)] for a float: the integer part, toward zero; [None] stands for
    the exception that [int] raises on a nan or an infinity. *)
Definition int_float (x : float) : option Z :=
  match Prim2SF x with
  | S754_zero _ => Some 0
  | S754_finite negative m e =>
      let n := Z.shiftl (Z.pos m) e in
      Some (if negative then - n else n)
  | S754_infinity _ => None
  | S754_nan => None
  end.

(** [range(n)] *)
Definition range (n : Z) : list Z := map Z.of_nat (seq 0 (Z.to_nat n)).

(** ** Exceptions *)

Inductive ExnClass : Type :=
| ImportError | ModuleNotFoundError | ValueError | IndexError | TypeError
| OSError | RuntimeError.

(** [isinstance(e, ImportError)]: ModuleNotFoundError derives from it. *)
Definition is_ImportError (c : ExnClass) : bool :=
  match c with
  | ImportError | ModuleNotFoundError => true
  | _ => false
  end.

Record Exn : Type := mkExn { exn_class : ExnClass; exn_str : pystr }.

Inductive Outcome (A : Type) : Type :=
| Return (a : A)
| Raise (e : Exn).
Arguments Return {A} a.
Arguments Raise {A} e.

(** ** The open document *)

Record Document : Type := mkDocument {
  doc_name : pystr;      (* the path it was opened from *)
  doc_len : Z;           (* len(doc) *)
  doc_closed : bool      (* doc.close() was called *)
}.

Definition close (d : Document) : Document :=
  mkDocument (doc_name d) (doc_len d) true.

Inductive Backend : Type := TesseractBackend | EasyOCRBackend | WindowsBackend.

(** ** External collaborators *)

Class World : Type := {
  Image : Type;
  (* fitz.open(path): the page count of the document, or an exception *)
  fitz_open : pystr -> Outcome nat;
  (* doc[page].get_pixmap(matrix=fitz.Matrix(zx, zy)) as a PIL image *)
  get_pixmap : Document -> Z -> float -> float -> Outcome Image;
  (* image.crop((x1, y1, x2, y2)) *)
  crop : Image -> Z -> Z -> Z -> Z -> Image;
  (* import easyocr / import winocr *)
  import_easyocr : Outcome unit;
  import_winocr : Outcome unit;
  (* pytesseract.image_to_string(image) *)
  image_to_string : Image -> Outcome pystr;
  (* easyocr.Reader(['en'], gpu=False) *)
  easyocr_Reader : Outcome unit;
  (* reader.readtext(np.array(image), detail=0, paragraph=True) *)
  readtext : Image -> Outcome (list pystr);
  (* (await winocr.recognize_pil(image, 'en')).text *)
  recognize_pil : Image -> Outcome pystr;
  (* open(path, "w", encoding="utf-8").write(text) *)
  write_file : pystr -> pystr -> Outcome unit
}.

(** Sequencing of calls that may raise. *)
Definition obind {A B : Type} (o : Outcome A) (k : A -> Outcome B) : Outcome B :=
  match o with
  | Return a => k a
  | Raise e => Raise e
  end.

(** [try: import m; engines.append(name)  except ImportError: pass] *)
Definition try_import_append (import_m : Outcome unit)
    (engines : list pystr) (name : pystr) : Outcome (list pystr) :=
  match import_m with
  | Return _ => Return (engines ++ [name])
  | Raise e => if is_ImportError (exn_class e) then Return engines else Raise e
  end.

Definition TESSERACT : pystr := lit "Tesseract".
Definition EASYOCR : pystr := lit "EasyOCR".
Definition WINDOWS_OCR : pystr := lit "Windows OCR".

Definition get_available_engines {W : World} : Outcome (list pystr) :=
  let engines := [TESSERACT] in
  obind (try_import_append import_easyocr engines EASYOCR) (fun engines =>
  obind (try_import_append import_winocr engines WINDOWS_OCR) (fun engines =>
  Return engines)).

(** ** The application object *)

Section Application.
Context {W : World}.

Inductive Effect : Type :=
| ShowWarning (title message : pystr)           (* messagebox.showwarning *)
| ShowError (title message : pystr)             (* messagebox.showerror *)
| AskOpenFilename                               (* filedialog.askopenfilename *)
| AskSaveAsFilename                             (* filedialog.asksaveasfilename *)
| FitzOpen (path : pystr)                       (* fitz.open *)
| GetPixmap (d : Document) (page : Z) (zx zy : float)
| Crop (img : Image) (x1 y1 x2 y2 : Z)
| PerformOcr (img : Image) (engine_name : pystr) (* OCREngine.perform_ocr *)
| EngineCall (b : Backend) (img : Image)        (* a backend is invoked *)
| WriteFile (path text : pystr).

Record App : Type := mkApp {
  pdf_document : option Document;
  current_page : Z;
  total_pages : Z;
  current_image : option Image;
  selection_start : option (Qc * Qc);
  selection_rect : option (Qc * Qc * Qc * Qc);
  zoom_level : float;
  available_engines : list pystr;
  selected_engine : pystr;                  (* the Tk StringVar *)
  text_output : pystr;                      (* content of the output pane *)
  status_var : pystr;
  easyocr_reader : bool;                    (* global _easyocr_reader is set *)
  trace : list Effect
}.

Definition set_pdf_document (v : option Document) (a : App) : App :=
  mkApp v (current_page a) (total_pages a) (current_image a)
    (selection_start a) (selection_rect a) (zoom_level a)
    (available_engines a) (selected_engine a) (text_output a)
    (status_var a) (easyocr_reader a) (trace a).
Definition set_current_page (v : Z) (a : App) : App :=
  mkApp (pdf_document a) v (total_pages a) (current_image a)
    (selection_start a) (selection_rect a) (zoom_level a)
    (available_engines a) (selected_engine a) (text_output a)
    (status_var a) (easyocr_reader a) (trace a).
Definition set_total_pages (v : Z) (a : App) : App :=
  mkApp (pdf_document a) (current_page a) v (current_image a)
    (selection_start a) (selection_rect a) (zoom_level a)
    (available_engines a) (selected_engine a) (text_output a)
    (status_var a) (easyocr_reader a) (trace a).
Definition set_current_image (v : option Image) (a : App) : App :=
  mkApp (pdf_document a) (current_page a) (total_pages a) v
    (selection_start a) (selection_rect a) (zoom_level a)
    (available_engines a) (selected_engine a) (text_output a)
    (status_var a) (easyocr_reader a) (trace a).
Definition set_selection_start (v : option (Qc * Qc)) (a : App) : App :=
  mkApp (pdf_document a) (current_page a) (total_pages a) (current_image a)
    v (selection_rect a) (zoom_level a)
    (available_engines a) (selected_engine a) (text_output a)
    (status_var a) (easyocr_reader a) (trace a).
Definition set_selection_rect (v : option (Qc * Qc * Qc * Qc)) (a : App) : App :=
  mkApp (pdf_document a) (current_page a) (total_pages a) (current_image a)
    (selection_start a) v (zoom_level a)
    (available_engines a) (selected_engine a) (text_output a)
    (status_var a) (easyocr_reader a) (trace a).
Definition set_zoom_level (v : float) (a : App) : App :=
  mkApp (pdf_document a) (current_page a) (total_pages a) (current_image a)
    (selection_start a) (selection_rect a) v
    (available_engines a) (selected_engine a) (text_output a)
    (status_var a) (easyocr_reader a) (trace a).
Definition set_selected_engine (v : pystr) (a : App) : App :=
  mkApp (pdf_document a) (current_page a) (total_pages a) (current_image a)
    (selection_start a) (selection_rect a) (zoom_level a)
    (available_engines a) v (text_output a)
    (status_var a) (easyocr_reader a) (trace a).
Definition set_text_output (v : pystr) (a : App) : App :=
  mkApp (pdf_document a) (current_page a) (total_pages a) (current_image a)
    (selection_start a) (selection_rect a) (zoom_level a)
    (available_engines a) (selected_engine a) v
    (status_var a) (easyocr_reader a) (trace a).
Definition set_status_var (v : pystr) (a : App) : App :=
  mkApp (pdf_document a) (current_page a) (total_pages a) (current_image a)
    (selection_start a) (selection_rect a) (zoom_level a)
    (available_engines a) (selected_engine a) (text_output a)
    v (easyocr_reader a) (trace a).
Definition set_easyocr_reader (v : bool) (a : App) : App :=
  mkApp (pdf_document a) (current_page a) (total_pages a) (current_image a)
    (selection_start a) (selection_rect a) (zoom_level a)
    (available_engines a) (selected_engine a) (text_output a)
    (status_var a) v (trace a).
Definition set_trace (v : list Effect) (a : App) : App :=
  mkApp (pdf_document a) (current_page a) (total_pages a) (current_image a)
    (selection_start a) (selection_rect a) (zoom_level a)
    (available_engines a) (selected_engine a) (text_output a)
    (status_var a) (easyocr_reader a) v.

(** *** The monad of methods: state, and exceptions that keep the state *)

Definition M (A : Type) : Type := App -> Outcome A * App.

Definition ret {A : Type} (x : A) : M A := fun a => (Return x, a).

Definition bind {A B : Type} (m : M A) (k : A -> M B) : M B :=
  fun a =>
    match m a with
    | (Return x, a') => k x a'
    | (Raise e, a') => (Raise e, a')
    end.

Definition raise {A : Type} (e : Exn) : M A := fun a => (Raise e, a).

(** [try: body  except Exception as e: handler] *)
Definition try_except {A : Type} (body : M A) (handler : Exn -> M A) : M A :=
  fun a =>
    match body a with
    | (Return x, a') => (Return x, a')
    | (Raise e, a') => handler e a'
    end.

Definition modify (f : App -> App) : M unit := fun a => (Return tt, f a).
Definition gets {A : Type} (f : App -> A) : M A := fun a => (Return (f a), a).

(** Records an effect on the outside world. *)
Definition emit (e : Effect) : M unit :=
  modify (fun a => set_trace (trace a ++ [e]) a).

(** The answer of a collaborator. *)
Definition call {A : Type} (o : Outcome A) : M A := fun a => (o, a).

(** A Tk callback: what is left of the object when the method is over;
    an exception that escapes is printed by Tk and dropped. *)
Definition run (m : M unit) (a : App) : App := snd (m a).

End Application.

Declare Scope app_scope.
Delimit Scope app_scope with app.
Notation "x <- m ;; k" := (bind m (fun x => k))
  (at level 61, m at next level, right associativity) : app_scope.
Notation "m ;; k" := (bind m (fun _ => k))
  (at level 61, right associativity) : app_scope.

Section Methods.
Context {W : World}.
Local Open Scope app_scope.

(** *** class OCREngine *)

Definition unknown_engine (engine_name : pystr) : Exn :=
  mkExn ValueError (lit "Unknown OCR engine: " ++ engine_name).

Definition get_easyocr_reader : M unit :=
  loaded <- gets easyocr_reader ;;
  if negb loaded then
    call import_easyocr ;;
    call easyocr_Reader ;;
    modify (set_easyocr_reader true)
  else ret tt.

Definition _tesseract_ocr (image : Image) : M pystr :=
  emit (EngineCall TesseractBackend image) ;;
  call (image_to_string image).

Definition _easyocr_ocr (image : Image) : M pystr :=
  emit (EngineCall EasyOCRBackend image) ;;
  get_easyocr_reader ;;
  results <- call (readtext image) ;;
  ret (join [NL] results).

Definition _windows_ocr (image : Image) : M pystr :=
  emit (EngineCall WindowsBackend image) ;;
  call import_winocr ;;
  call (recognize_pil image).

Definition perform_ocr (image : Image) (engine_name : pystr) : M pystr :=
  emit (PerformOcr image engine_name) ;;
  if pystr_eqb engine_name TESSERACT then _tesseract_ocr image
  else if pystr_eqb engine_name EASYOCR then _easyocr_ocr image
  else if pystr_eqb engine_name WINDOWS_OCR then _windows_ocr image
  else raise (unknown_engine engine_name).

(** *** class PDFOCRApp *)

Definition initial_app (engines : list pystr) (engine : pystr) : App :=
  mkApp None 0 0 None None None 1.0%float engines engine []
    (lit "Ready. Open a PDF to begin.") false [].

(** [__init__]; [available_engines[0]] is the preselected engine. *)
Definition init : Outcome App :=
  obind get_available_engines (fun engines =>
  match engines with
  | [] => Raise (mkExn IndexError (lit "list index out of range"))
  | first :: _ => Return (initial_app engines first)
  end).

(** The page is loaded, rendered with the given matrix and converted. *)
Definition render (d : Document) (page : Z) (zx zy : float) : M Image :=
  emit (GetPixmap d page zx zy) ;;
  call (get_pixmap d page zx zy).

Definition display_page : M unit :=
  doc <- gets pdf_document ;;
  match doc with
  | None => ret tt
  | Some d =>
      page <- gets current_page ;;
      zoom <- gets zoom_level ;;
      img <- render d page (zoom * 1.5)%float (zoom * 1.5)%float ;;
      modify (set_current_image (Some img)) ;;
      modify (set_selection_rect None) ;;
      modify (set_selection_start None)
  end.

(** [file_path] is what the file dialog returned, empty when cancelled. *)
Definition open_pdf (file_path : pystr) : M unit :=
  emit AskOpenFilename ;;
  if truthy file_path then
    try_except
      (doc <- gets pdf_document ;;
       match doc with
       | Some d => modify (set_pdf_document (Some (close d)))
       | None => ret tt
       end ;;
       emit (FitzOpen file_path) ;;
       n <- call (fitz_open file_path) ;;
       let d := mkDocument file_path (Z.of_nat n) false in
       modify (set_pdf_document (Some d)) ;;
       modify (set_total_pages (doc_len d)) ;;
       modify (set_current_page 0) ;;
       modify (set_zoom_level 1.0%float) ;;
       display_page ;;
       modify (set_status_var (lit "Loaded: " ++ file_path)))
      (fun e =>
         emit (ShowError (lit "Error") (lit "Failed to open PDF: " ++ exn_str e)))
  else ret tt.

Definition is_some {A : Type} (o : option A) : bool :=
  match o with Some _ => true | None => false end.

Definition prev_page : M unit :=
  doc <- gets pdf_document ;;
  page <- gets current_page ;;
  if is_some doc && (page >? 0) then
    modify (set_current_page (page - 1)) ;;
    display_page
  else ret tt.

Definition next_page : M unit :=
  doc <- gets pdf_document ;;
  page <- gets current_page ;;
  total <- gets total_pages ;;
  if is_some doc && (page <? total - 1) then
    modify (set_current_page (page + 1)) ;;
    display_page
  else ret tt.

Definition zoom_in : M unit :=
  zoom <- gets zoom_level ;;
  modify (set_zoom_level (fmin 3.0 (zoom + 0.25))%float) ;;
  display_page.

Definition zoom_out : M unit :=
  zoom <- gets zoom_level ;;
  modify (set_zoom_level (fmax 0.25 (zoom - 0.25))%float) ;;
  display_page.

(** [x], [y] are the canvas coordinates of the mouse event. *)
Definition on_mouse_press (x y : Qc) : M unit :=
  img <- gets current_image ;;
  match img with
  | None => ret tt
  | Some _ => modify (set_selection_start (Some (x, y)))
  end.

(** Only redraws the preview rectangle. *)
Definition on_mouse_drag (x y : Qc) : M unit :=
  start <- gets selection_start ;;
  match start with
  | None => ret tt
  | Some _ => ret tt
  end.

Definition normalize (x1 y1 x2 y2 : Qc) : Qc * Qc * Qc * Qc :=
  (qmin x1 x2, qmin y1 y2, qmax x1 x2, qmax y1 y2).

Definition selection_status (r : Qc * Qc * Qc * Qc) : pystr :=
  let '(a, b, c, d) := r in
  lit "Selection: (" ++ str_int (int_trunc a) ++ lit ", "
    ++ str_int (int_trunc b) ++ lit ") to (" ++ str_int (int_trunc c)
    ++ lit ", " ++ str_int (int_trunc d) ++ lit ")".

Definition on_mouse_release (x y : Qc) : M unit :=
  start <- gets selection_start ;;
  match start with
  | None => ret tt
  | Some (x1, y1) =>
      let x2 := x in
      let y2 := y in
      modify (set_selection_rect (Some (normalize x1 y1 x2 y2))) ;;
      modify (set_status_var (selection_status (normalize x1 y1 x2 y2)))
  end.

Definition clear_selection : M unit :=
  modify (set_selection_rect None) ;;
  modify (set_selection_start None) ;;
  modify (set_status_var (lit "Selection cleared.")).

Definition display_ocr_result (text source : pystr) : M unit :=
  modify (set_text_output text) ;;
  modify (set_status_var (lit "OCR complete: " ++ source)).

(** The two callbacks of every [except Exception as e] of a worker. *)
Definition ocr_failed (e : Exn) : M unit :=
  emit (ShowError (lit "OCR Error") (exn_str e)) ;;
  modify (set_status_var (lit "OCR failed.")).

Definition open_first : M unit :=
  emit (ShowWarning (lit "Warning") (lit "Please open a PDF first.")).

Definition ocr_current_page : M unit :=
  img <- gets current_image ;;
  match img with
  | None => open_first
  | Some image =>
      engine <- gets selected_engine ;;
      modify (set_status_var
        (lit "Performing OCR on current page using " ++ engine ++ lit "...")) ;;
      try_except
        (text <- perform_ocr image engine ;;
         page <- gets current_page ;;
         display_ocr_result text
           (lit "Page " ++ str_int (page + 1) ++ lit " (" ++ engine ++ lit ")"))
        ocr_failed
  end.

Definition select_first : M unit :=
  emit (ShowWarning (lit "Warning")
    (lit "Please make a selection first." ++ [NL]
       ++ lit "Click and drag on the PDF to select an area.")).

Definition ocr_selection : M unit :=
  img <- gets current_image ;;
  match img with
  | None => open_first
  | Some image =>
      rect <- gets selection_rect ;;
      match rect with
      | None => select_first
      | Some (x1, y1, x2, y2) =>
          engine <- gets selected_engine ;;
          modify (set_status_var
            (lit "Performing OCR on selection using " ++ engine ++ lit "...")) ;;
          try_except
            (emit (Crop image (int_trunc x1) (int_trunc y1)
                     (int_trunc x2) (int_trunc y2)) ;;
             let cropped := crop image (int_trunc x1) (int_trunc y1)
                              (int_trunc x2) (int_trunc y2) in
             text <- perform_ocr cropped engine ;;
             display_ocr_result text (lit "Selection (" ++ engine ++ lit ")"))
            ocr_failed
      end
  end.

(** One section of the whole-document text:
    [f"--- Page {page_num + 1} ---\n{text}\n"]. *)
Definition page_section (page_num : Z) (text : pystr) : pystr :=
  lit "--- Page " ++ str_int (page_num + 1) ++ lit " ---" ++ [NL]
    ++ text ++ [NL].

(** The body of [for page_num in range(self.total_pages)]. *)
Fixpoint ocr_pages (engine : pystr) (pages : list Z) (all_text : list pystr)
    : M (list pystr) :=
  match pages with
  | [] => ret all_text
  | page_num :: rest =>
      total <- gets total_pages ;;
      modify (set_status_var
        (lit "Processing page " ++ str_int (page_num + 1) ++ lit " of "
           ++ str_int total ++ lit " using " ++ engine ++ lit "...")) ;;
      doc <- gets pdf_document ;;
      match doc with
      | None =>
          raise (mkExn TypeError (lit "'NoneType' object is not subscriptable"))
      | Some d =>
          img <- render d page_num 1.5%float 1.5%float ;;
          text <- perform_ocr img engine ;;
          ocr_pages engine rest (all_text ++ [page_section page_num text])
      end
  end.

Definition ocr_entire_document : M unit :=
  doc <- gets pdf_document ;;
  match doc with
  | None => open_first
  | Some _ =>
      engine <- gets selected_engine ;;
      modify (set_status_var
        (lit "Performing OCR on entire document using " ++ engine ++ lit "...")) ;;
      try_except
        (total <- gets total_pages ;;
         all_text <- ocr_pages engine (range total) [] ;;
         let full_text := join [NL] all_text in
         display_ocr_result full_text
           (lit "Entire Document (" ++ engine ++ lit ")"))
        ocr_failed
  end.

(** [self.text_output.get(1.0, tk.END)]: a Tk text widget ends with a
    newline of its own, which [get] up to [END] returns. *)
Definition text_output_get (a : App) : pystr := text_output a ++ [NL].

(** [file_path] is what the save dialog returns if it is shown. *)
Definition save_text (file_path : pystr) : M unit :=
  content <- gets text_output_get ;;
  let text := strip content in
  if negb (truthy text) then
    emit (ShowWarning (lit "Warning") (lit "No text to save."))
  else
    emit AskSaveAsFilename ;;
    if truthy file_path then
      try_except
        (emit (WriteFile file_path text) ;;
         call (write_file file_path text) ;;
         modify (set_status_var (lit "Saved to: " ++ file_path)))
        (fun e =>
           emit (ShowError (lit "Error") (lit "Failed to save: " ++ exn_str e)))
    else ret tt.

(** *** Functions that feed labels, and the unused availability check *)

(** [d.get(key, default)] for a dict written as its list of items. *)
Fixpoint dict_get (d : list (pystr * pystr)) (key default : pystr) : pystr :=
  match d with
  | [] => default
  | (k, v) :: rest => if pystr_eqb key k then v else dict_get rest key default
  end.

(** The dict [info] of [update_engine_info]. *)
Definition engine_info_table : list (pystr * pystr) :=
  [(TESSERACT, lit "Fast, accurate, 100+ languages");
   (EASYOCR, lit "Deep learning, good for complex layouts");
   (WINDOWS_OCR, lit "Built-in Windows 10/11, fast")].

(** The text that [update_engine_info] puts in the engine label. *)
Definition update_engine_info (a : App) : pystr :=
  let engine := selected_engine a in
  dict_get engine_info_table engine [].

(** The text that [update_zoom_label] puts in the zoom label:
    [f"{int(self.zoom_level * 100)}%"]. *)
Definition update_zoom_label (a : App) : option pystr :=
  match int_float (zoom_level a * 100)%float with
  | Some n => Some (str_int n ++ lit "%")
  | None => None
  end.


(** *** The event loop *)

Inductive UIEvent : Type :=
| ClickOpen (file_path : pystr)
| ClickPrev
| ClickNext
| ClickZoomIn
| ClickZoomOut
| MousePress (x y : Qc)
| MouseDrag (x y : Qc)
| MouseRelease (x y : Qc)
| ClickClearSelection
| ClickSaveText (file_path : pystr)
| ChooseEngine (i : nat)            (* the read-only combobox *)
| ClickOcrCurrentPage
| ClickOcrSelection
| ClickOcrEntireDocument
| EditOutput (content : pystr).     (* typing in the output pane *)

Definition handler (ev : UIEvent) : M unit :=
  match ev with
  | ClickOpen file_path => open_pdf file_path
  | ClickPrev => prev_page
  | ClickNext => next_page
  | ClickZoomIn => zoom_in
  | ClickZoomOut => zoom_out
  | MousePress x y => on_mouse_press x y
  | MouseDrag x y => on_mouse_drag x y
  | MouseRelease x y => on_mouse_release x y
  | ClickClearSelection => clear_selection
  | ClickSaveText file_path => save_text file_path
  | ChooseEngine i =>
      engines <- gets available_engines ;;
      match nth_error engines i with
      | Some name => modify (set_selected_engine name)
      | None => ret tt
      end
  | ClickOcrCurrentPage => ocr_current_page
  | ClickOcrSelection => ocr_selection
  | ClickOcrEntireDocument => ocr_entire_document
  | EditOutput content => modify (set_text_output content)
  end.

Definition step (a : App) (ev : UIEvent) : App := run (handler ev) a.

(** The object after a sequence of events, first event first. *)
Definition run_events (a : App) (evs : list UIEvent) : App :=
  fold_left step evs a.

(** What the event loop can reach from a freshly constructed object. *)
Inductive reachable : App -> Prop :=
| reachable_init (a : App) : init = Return a -> reachable a
| reachable_step (a : App) (ev : UIEvent) :
    reachable a -> reachable (step a ev).

End Methods.

Arguments lit : simpl never.
Arguments str_int : simpl never.
Arguments pystr_eqb : simpl never.

(** ** Vocabulary of the properties *)

Section Vocabulary.
Context {W : World}.

Definition importable (o : Outcome unit) : bool :=
  match o with Return _ => true | Raise _ => false end.

(** The import succeeded or failed with an ImportError. *)
Definition detected (o : Outcome unit) : bool :=
  match o with
  | Return _ => true
  | Raise e => is_ImportError (exn_class e)
  end.

(** The object once [perform_ocr] has been entered. *)
Definition entered (image : Image) (name : pystr) (a : App) : App :=
  set_trace (trace a ++ [PerformOcr image name]) a.

Definition is_warning (e : Effect) : bool :=
  match e with ShowWarning _ _ => true | _ => false end.

Definition is_perform_ocr (e : Effect) : bool :=
  match e with PerformOcr _ _ => true | _ => false end.

Definition is_engine_call (e : Effect) : bool :=
  match e with EngineCall _ _ => true | _ => false end.

Definition starts_with_space (s : pystr) : bool :=
  match s with c :: _ => isspace c | [] => false end.

Definition ends_with_space (s : pystr) : bool := starts_with_space (rev s).

(** What [save_text] tells the user when the write fails. *)
Definition save_failed (o : Outcome unit) : list Effect :=
  match o with
  | Return _ => []
  | Raise e => [ShowError (lit "Error") (lit "Failed to save: " ++ exn_str e)]
  end.

(** The fields that an OCR run has no business with. *)
Definition shell_view (a : App) :=
  (pdf_document a, current_page a, total_pages a, current_image a,
   selection_start a, selection_rect a, zoom_level a,
   available_engines a, selected_engine a).

(** The backend behind an engine name, if it is one of the three. *)
Definition backend_of (engine_name : pystr) : option Backend :=
  if pystr_eqb engine_name TESSERACT then Some TesseractBackend
  else if pystr_eqb engine_name EASYOCR then Some EasyOCRBackend
  else if pystr_eqb engine_name WINDOWS_OCR then Some WindowsBackend
  else None.






(** The page index is a page of the document, or it is 0 where there is
    no page at all. *)
Definition page_valid (a : App) : Prop :=
  0 <= current_page a
  /\ (current_page a < total_pages a
      \/ (current_page a = 0 /\ total_pages a = 0)).

(** The mouse goes down at [p], moves over [path] and goes up at [r]. *)
Definition gesture (p : Qc * Qc) (path : list (Qc * Qc)) (r : Qc * Qc)
    : list UIEvent :=
  MousePress (fst p) (snd p)
    :: map (fun q => MouseDrag (fst q) (snd q)) path
    ++ [MouseRelease (fst r) (snd r)].

(** No selection is being made or has been made. *)
Definition no_selection (a : App) : Prop :=
  selection_rect a = None /\ selection_start a = None.

Definition is_write (e : Effect) : bool :=
  match e with WriteFile _ _ => true | _ => false end.

Definition is_save_dialog (e : Effect) : bool :=
  match e with AskSaveAsFilename => true | _ => false end.

Definition is_crop (e : Effect) : bool :=
  match e with Crop _ _ _ _ _ => true | _ => false end.

Definition is_render (e : Effect) : bool :=
  match e with GetPixmap _ _ _ _ => true | _ => false end.

Definition is_dialog (e : Effect) : bool :=
  match e with
  | ShowWarning _ _ | ShowError _ _ | AskOpenFilename | AskSaveAsFilename => true
  | _ => false
  end.

(** The calls to the outside world that each event may make. *)
Definition footprint (ev : UIEvent) (e : Effect) : bool :=
  match ev, e with
  | ClickOpen _, (AskOpenFilename | FitzOpen _ | GetPixmap _ _ _ _
                  | ShowError _ _) => true
  | (ClickPrev | ClickNext | ClickZoomIn | ClickZoomOut), GetPixmap _ _ _ _ =>
      true
  | ClickSaveText _, (ShowWarning _ _ | AskSaveAsFilename | WriteFile _ _
                      | ShowError _ _) => true
  | ClickOcrCurrentPage, (ShowWarning _ _ | PerformOcr _ _ | EngineCall _ _
                          | ShowError _ _) => true
  | ClickOcrSelection, (ShowWarning _ _ | Crop _ _ _ _ _ | PerformOcr _ _
                        | EngineCall _ _ | ShowError _ _) => true
  | ClickOcrEntireDocument, (ShowWarning _ _ | GetPixmap _ _ _ _
                             | PerformOcr _ _ | EngineCall _ _
                             | ShowError _ _) => true
  | _, _ => false
  end.

(** [s'] continues the trace of [s] with effects that all satisfy [P]. *)
Definition extends_trace (P : Effect -> bool) (s s' : App) : Prop :=
  exists new, trace s' = trace s ++ new /\ forallb P new = true.

(** Whatever state a computation starts in, the state it ends in is
    related to it by [R]. *)
Definition keeps {A : Type} (R : App -> App -> Prop) (m : M A) : Prop :=
  forall s, R s (snd (m s)).

(** A reader that is set stays set. *)
Definition reader_kept (s s' : App) : Prop :=
  easyocr_reader s = true -> easyocr_reader s' = true.

(** What holds of the document fields in every reachable state. *)
Definition document_consistent (a : App) : Prop :=
  match pdf_document a with
  | None =>
      current_image a = None /\ total_pages a = 0 /\ current_page a = 0
      /\ selection_rect a = None /\ selection_start a = None
  | Some d => total_pages a = doc_len d /\ 0 <= doc_len d
  end.

(** The zoom levels, a quarter apart. *)
Definition zoom_levels : list float :=
  [0.25; 0.5; 0.75; 1.0; 1.25; 1.5; 1.75; 2.0; 2.25; 2.5; 2.75; 3.0]%float.

Definition level (k : nat) : float := nth k zoom_levels 3.0%float.

(** [n] clicks on the same button. *)
Definition clicks (ev : UIEvent) (n : nat) (a : App) : App :=
  run_events a (repeat ev n).

End Vocabulary.

(** ** Two concrete worlds, to run the methods on *)

Module Demo.

(** Bitmaps are described by the numbers that produced them. *)
Definition bitmap : Type := list Z.

Definition missing : pystr := lit "missing.pdf".

(** Every file but "missing.pdf" opens as a three-page document; Tesseract
    and Windows OCR are installed, EasyOCR is not. *)
Definition world : World := {|
  Image := bitmap;
  fitz_open := fun path =>
    if pystr_eqb path missing
    then Raise (mkExn RuntimeError (lit "no such file"))
    else Return 3%nat;
  get_pixmap := fun d page _ _ =>
    if doc_closed d then Raise (mkExn ValueError (lit "document closed"))
    else Return [page];
  crop := fun img x1 y1 x2 y2 => img ++ [x1; y1; x2; y2];
  import_easyocr := Raise (mkExn ModuleNotFoundError (lit "No module named 'easyocr'"));
  import_winocr := Return tt;
  image_to_string := fun img => Return (lit "text " ++ List.concat (map str_int img));
  easyocr_Reader := Return tt;
  readtext := fun img => Return [lit "line"];
  recognize_pil := fun img => Return (lit "windows");
  write_file := fun _ _ => Return tt
|}.

(** The same machine with an EasyOCR installation whose import fails
    while loading a shared library. *)
Definition broken_world : World := {|
  Image := bitmap;
  fitz_open := @fitz_open world;
  get_pixmap := @get_pixmap world;
  crop := @crop world;
  import_easyocr := Raise (mkExn OSError (lit "cannot load library"));
  import_winocr := Return tt;
  image_to_string := @image_to_string world;
  easyocr_Reader := Return tt;
  readtext := @readtext world;
  recognize_pil := @recognize_pil world;
  write_file := fun _ _ => Return tt
|}.

Definition app0 : App (W := world) :=
  initial_app [TESSERACT; WINDOWS_OCR] TESSERACT.

(** A document is open and shown. *)
Definition app1 : App (W := world) := step app0 (ClickOpen (lit "a.pdf")).

(** A rectangle has been drawn on its first page. *)
Definition selected : App (W := world) :=
  run_events app1
    [MousePress (Q2Qc 1) (Q2Qc 1); MouseRelease (Q2Qc 5) (Q2Qc 4)].

(** Something has been typed into the output pane. *)
Definition typed : App (W := world) :=
  step app1 (EditOutput (lit "  hello ")).

End Demo.

(** A machine on which things go wrong: "empty.pdf" opens as a document
    without pages, a page outside the document cannot be loaded, and the
    second page of any document fails to render. *)
Module Flaky.

Definition empty : pystr := lit "empty.pdf".

Definition world : World := {|
  Image := Demo.bitmap;
  fitz_open := fun path =>
    if pystr_eqb path empty then Return 0%nat else Return 3%nat;
  get_pixmap := fun d page _ _ =>
    if doc_closed d then Raise (mkExn ValueError (lit "document closed"))
    else if (page <? 0) || (doc_len d <=? page)
    then Raise (mkExn IndexError (lit "page not in document"))
    else if page =? 1 then Raise (mkExn RuntimeError (lit "cannot render"))
    else Return [page];
  crop := @crop Demo.world;
  import_easyocr := Return tt;
  import_winocr := Raise (mkExn ImportError (lit "No module named 'winocr'"));
  image_to_string := @image_to_string Demo.world;
  easyocr_Reader := Raise (mkExn RuntimeError (lit "model download failed"));
  readtext := @readtext Demo.world;
  recognize_pil := @recognize_pil Demo.world;
  write_file := fun _ _ => Raise (mkExn OSError (lit "read-only file system"))
|}.

Definition app0 : App (W := world) :=
  initial_app [TESSERACT; EASYOCR] TESSERACT.

(** A three-page document is open. *)
Definition app1 : App (W := world) := step app0 (ClickOpen (lit "b.pdf")).


End Flaky.

(** ** Strings and numbers *)

Lemma pystr_eqb_eq (a b : pystr) : pystr_eqb a b = true <-> a = b.
Proof.
  unfold pystr_eqb. destruct (list_eq_dec N.eq_dec a b); split; congruence.
Qed.

Lemma pystr_eqb_neq (a b : pystr) : pystr_eqb a b = false <-> a <> b.
Proof.
  unfold pystr_eqb. destruct (list_eq_dec N.eq_dec a b); split; congruence.
Qed.

Lemma pystr_eqb_refl (a : pystr) : pystr_eqb a a = true.
Proof. now apply pystr_eqb_eq. Qed.

Lemma engine_names_distinct :
  TESSERACT <> EASYOCR /\ TESSERACT <> WINDOWS_OCR /\ EASYOCR <> WINDOWS_OCR.
Proof. repeat split; apply pystr_eqb_neq; reflexivity. Qed.

Lemma app_one_neq {A : Type} (l : list A) (x : A) : l ++ [x] <> l.
Proof.
  intros H. apply (f_equal (@List.length A)) in H.
  rewrite length_app in H. simpl in H. lia.
Qed.

(** *** Lines and page headers *)




















(** ** The registry and the adapter *)

Section EngineProperties.
Context {W : World}.
Local Open Scope app_scope.

(** C3, as amended: when each optional import succeeds or raises an
    ImportError, the list of engines is Tesseract, then EasyOCR if its import
    succeeded, then Windows OCR if its import succeeded, so an ImportError
    only omits the engine; an exception of another class raised by an import
    is not caught, and [get_available_engines] raises it. *)
Theorem get_available_engines_import_error_only :
  (detected import_easyocr = true -> detected import_winocr = true ->
   get_available_engines =
     Return ([TESSERACT]
               ++ (if importable import_easyocr then [EASYOCR] else [])
               ++ (if importable import_winocr then [WINDOWS_OCR] else [])))
  /\ (forall e, import_easyocr = Raise e ->
        is_ImportError (exn_class e) = false ->
        get_available_engines = Raise e)
  /\ (forall e, detected import_easyocr = true ->
        import_winocr = Raise e ->
        is_ImportError (exn_class e) = false ->
        get_available_engines = Raise e).
Proof.
  unfold get_available_engines, try_import_append, detected, importable.
  repeat split.
  - destruct import_easyocr as [[]|e1], import_winocr as [[]|e2];
      simpl; intros H1 H2; rewrite ?H1, ?H2; reflexivity.
  - intros e -> He. simpl. now rewrite He.
  - intros e H1 -> He.
    destruct import_easyocr as [[]|e1]; simpl in *; rewrite ?H1, ?He; simpl;
      now rewrite ?He.
Qed.

Lemma _tesseract_ocr_trace image (s : App) :
  trace (snd (_tesseract_ocr image s))
  = trace s ++ [EngineCall TesseractBackend image].
Proof.
  unfold _tesseract_ocr, bind, emit, modify, call.
  destruct (image_to_string image); reflexivity.
Qed.

Lemma _easyocr_ocr_trace image (s : App) :
  trace (snd (_easyocr_ocr image s))
  = trace s ++ [EngineCall EasyOCRBackend image].
Proof.
  unfold _easyocr_ocr, get_easyocr_reader, bind, emit, modify, call, gets, ret.
  simpl. destruct (easyocr_reader s); simpl.
  - destruct (readtext image); reflexivity.
  - destruct import_easyocr; simpl; [|reflexivity].
    destruct easyocr_Reader; simpl; [|reflexivity].
    destruct (readtext image); reflexivity.
Qed.

Lemma _windows_ocr_trace image (s : App) :
  trace (snd (_windows_ocr image s))
  = trace s ++ [EngineCall WindowsBackend image].
Proof.
  unfold _windows_ocr, bind, emit, modify, call. simpl.
  destruct import_winocr; simpl; [|reflexivity].
  destruct (recognize_pil image); reflexivity.
Qed.

Lemma perform_ocr_tesseract image a :
  perform_ocr image TESSERACT a = _tesseract_ocr image (entered image TESSERACT a).
Proof. reflexivity. Qed.

Lemma perform_ocr_easyocr image a :
  perform_ocr image EASYOCR a = _easyocr_ocr image (entered image EASYOCR a).
Proof. reflexivity. Qed.

Lemma perform_ocr_windows image a :
  perform_ocr image WINDOWS_OCR a
  = _windows_ocr image (entered image WINDOWS_OCR a).
Proof. reflexivity. Qed.

Lemma perform_ocr_unknown image name a :
  ~ In name [TESSERACT; EASYOCR; WINDOWS_OCR] ->
  perform_ocr image name a = (Raise (unknown_engine name), entered image name a).
Proof.
  intros H. simpl in H.
  unfold perform_ocr, bind, emit, modify. simpl.
  destruct (pystr_eqb name TESSERACT) eqn:E1;
    [apply pystr_eqb_eq in E1; exfalso; apply H; auto|].
  destruct (pystr_eqb name EASYOCR) eqn:E2;
    [apply pystr_eqb_eq in E2; exfalso; apply H; auto|].
  destruct (pystr_eqb name WINDOWS_OCR) eqn:E3;
    [apply pystr_eqb_eq in E3; exfalso; apply H; auto|].
  reflexivity.
Qed.

Lemma perform_ocr_known_trace image name a :
  In name [TESSERACT; EASYOCR; WINDOWS_OCR] ->
  exists b, trace (snd (perform_ocr image name a))
            = trace (entered image name a) ++ [EngineCall b image].
Proof.
  simpl. intros [<-|[<-|[<-|[]]]].
  - exists TesseractBackend. rewrite perform_ocr_tesseract.
    apply _tesseract_ocr_trace.
  - exists EasyOCRBackend. rewrite perform_ocr_easyocr.
    apply _easyocr_ocr_trace.
  - exists WindowsBackend. rewrite perform_ocr_windows.
    apply _windows_ocr_trace.
Qed.

(** C9: [perform_ocr] raises its unsupported-engine error, with no backend
    entered, exactly when the engine name is none of the three identifiers;
    for each of the three it runs that backend's method, and the backend
    call shows in the trace. *)
Theorem perform_ocr_unsupported_iff_unknown (image : Image) (name : pystr)
    (a : App) :
  (perform_ocr image name a
     = (Raise (unknown_engine name), entered image name a)
   <-> ~ In name [TESSERACT; EASYOCR; WINDOWS_OCR])
  /\ perform_ocr image TESSERACT a
      = _tesseract_ocr image (entered image TESSERACT a)
  /\ perform_ocr image EASYOCR a
      = _easyocr_ocr image (entered image EASYOCR a)
  /\ perform_ocr image WINDOWS_OCR a
      = _windows_ocr image (entered image WINDOWS_OCR a)
  /\ (In name [TESSERACT; EASYOCR; WINDOWS_OCR] <->
      exists b, trace (snd (perform_ocr image name a))
                = trace a ++ [PerformOcr image name; EngineCall b image]).
Proof.
  assert (K : In name [TESSERACT; EASYOCR; WINDOWS_OCR] ->
              exists b, trace (snd (perform_ocr image name a))
                = trace a ++ [PerformOcr image name; EngineCall b image]).
  { intros H. destruct (perform_ocr_known_trace image name a H) as [b Hb].
    exists b. rewrite Hb. unfold entered. simpl.
    now rewrite <- app_assoc. }
  split; [split|].
  - intros Heq Hin. destruct (K Hin) as [b Hb].
    rewrite Heq in Hb. simpl in Hb.
    apply (f_equal (@List.length _)) in Hb. rewrite !length_app in Hb.
    simpl in Hb. lia.
  - apply perform_ocr_unknown.
  - repeat split; try reflexivity; [exact K|].
    intros [b Hb].
    destruct (in_dec (list_eq_dec N.eq_dec) name
                [TESSERACT; EASYOCR; WINDOWS_OCR]) as [Hin|Hout]; [exact Hin|].
    rewrite (perform_ocr_unknown image name a Hout) in Hb. simpl in Hb.
    apply (f_equal (@List.length _)) in Hb. rewrite !length_app in Hb.
    simpl in Hb. lia.
Qed.

End EngineProperties.

Ltac unfold_monad :=
  unfold run, bind, try_except, emit, modify, gets, ret, call, raise in *.

(** Case analysis on an innermost scrutinee of the goal. *)
Ltac break_match :=
  match goal with
  | |- context [match ?x with _ => _ end] =>
      lazymatch x with
      | context [match _ with _ => _ end] => fail
      | _ => destruct x eqn:?
      end
  end.

Ltac run_method := unfold_monad; simpl; repeat (break_match; simpl);
  try tauto; try easy.

(** ** The methods, field by field *)

Section MethodProperties.
Context {W : World}.
Local Open Scope app_scope.

(** What [display_page] leaves alone. *)
Lemma display_page_frame (a : App) :
  let a' := snd (display_page a) in
  pdf_document a' = pdf_document a /\ current_page a' = current_page a
  /\ total_pages a' = total_pages a /\ zoom_level a' = zoom_level a
  /\ available_engines a' = available_engines a
  /\ selected_engine a' = selected_engine a
  /\ text_output a' = text_output a /\ status_var a' = status_var a
  /\ easyocr_reader a' = easyocr_reader a.
Proof. unfold display_page, render. run_method. Qed.

(** A render that succeeds installs the bitmap and drops the selection; one
    that fails leaves both as they were. *)
Lemma display_page_render (a : App) (d : Document) :
  pdf_document a = Some d ->
  let z := (zoom_level a * 1.5)%float in
  let a' := snd (display_page a) in
  match get_pixmap d (current_page a) z z with
  | Return img =>
      current_image a' = Some img /\ selection_rect a' = None
      /\ selection_start a' = None /\ fst (display_page a) = Return tt
  | Raise e =>
      current_image a' = current_image a
      /\ selection_rect a' = selection_rect a
      /\ selection_start a' = selection_start a
      /\ fst (display_page a) = Raise e
  end.
Proof.
  intros Hd. unfold display_page, render. unfold_monad. simpl. rewrite Hd.
  simpl. destruct (get_pixmap d (current_page a) _ _); simpl; auto.
Qed.

Lemma display_page_no_document (a : App) :
  pdf_document a = None -> display_page a = (Return tt, a).
Proof. intros H. unfold display_page. unfold_monad. now rewrite H. Qed.

(** *** Page navigation *)

Lemma prev_page_current_page (a : App) :
  current_page (step a ClickPrev)
  = if is_some (pdf_document a) && (current_page a >? 0)
    then current_page a - 1 else current_page a.
Proof.
  unfold step, handler, prev_page. unfold_monad. simpl.
  destruct (is_some (pdf_document a) && (current_page a >? 0)); [|reflexivity].
  simpl.
  pose proof (display_page_frame (set_current_page (current_page a - 1) a)) as F.
  simpl in F. destruct (display_page _) as [[[]|e] a']; simpl in *; tauto.
Qed.

Lemma next_page_current_page (a : App) :
  current_page (step a ClickNext)
  = if is_some (pdf_document a) && (current_page a <? total_pages a - 1)
    then current_page a + 1 else current_page a.
Proof.
  unfold step, handler, next_page. unfold_monad. simpl.
  destruct (is_some (pdf_document a) && (current_page a <? total_pages a - 1));
    [|reflexivity].
  simpl.
  pose proof (display_page_frame (set_current_page (current_page a + 1) a)) as F.
  simpl in F. destruct (display_page _) as [[[]|e] a']; simpl in *; tauto.
Qed.

Lemma prev_page_total_pages (a : App) :
  total_pages (step a ClickPrev) = total_pages a.
Proof.
  unfold step, handler, prev_page. unfold_monad. simpl.
  destruct (is_some (pdf_document a) && (current_page a >? 0)); [|reflexivity].
  simpl.
  pose proof (display_page_frame (set_current_page (current_page a - 1) a)) as F.
  simpl in F. destruct (display_page _) as [[[]|e] a']; simpl in *; tauto.
Qed.

Lemma next_page_total_pages (a : App) :
  total_pages (step a ClickNext) = total_pages a.
Proof.
  unfold step, handler, next_page. unfold_monad. simpl.
  destruct (is_some (pdf_document a) && (current_page a <? total_pages a - 1));
    [|reflexivity].
  simpl.
  pose proof (display_page_frame (set_current_page (current_page a + 1) a)) as F.
  simpl in F. destruct (display_page _) as [[[]|e] a']; simpl in *; tauto.
Qed.


(** *** The selection *)

Lemma Qcltb_lt (a b : Qc) : Qcltb a b = true <-> (a < b)%Qc.
Proof.
  unfold Qcltb. rewrite Qclt_alt. destruct (a ?= b)%Qc; split; congruence.
Qed.

Lemma Qcltb_ge (a b : Qc) : Qcltb a b = false <-> (b <= a)%Qc.
Proof.
  split.
  - intros H. apply Qcnot_lt_le. intros L. apply Qcltb_lt in L. congruence.
  - intros H. destruct (Qcltb a b) eqn:E; [|reflexivity].
    apply Qcltb_lt in E. exfalso. exact (Qcle_not_lt _ _ H E).
Qed.

Lemma qmin_comm (a b : Qc) : qmin a b = qmin b a.
Proof.
  unfold qmin. destruct (Qcltb b a) eqn:E1, (Qcltb a b) eqn:E2; try reflexivity.
  - apply Qcltb_lt in E1, E2. exfalso.
    exact (Qclt_not_le _ _ E1 (Qclt_le_weak _ _ E2)).
  - apply Qcltb_ge in E1, E2. now apply Qcle_antisym.
Qed.

Lemma qmax_comm (a b : Qc) : qmax a b = qmax b a.
Proof.
  unfold qmax. destruct (Qcltb b a) eqn:E1, (Qcltb a b) eqn:E2; try reflexivity.
  - apply Qcltb_lt in E1, E2. exfalso.
    exact (Qclt_not_le _ _ E1 (Qclt_le_weak _ _ E2)).
  - apply Qcltb_ge in E1, E2. now apply Qcle_antisym.
Qed.

Lemma qmin_le_qmax (a b : Qc) : (qmin a b <= qmax a b)%Qc.
Proof.
  unfold qmin, qmax. destruct (Qcltb b a) eqn:E1, (Qcltb a b) eqn:E2.
  - apply Qcle_refl.
  - apply Qclt_le_weak. now apply Qcltb_lt.
  - apply Qclt_le_weak. now apply Qcltb_lt.
  - apply Qcle_refl.
Qed.

Lemma normalize_swap (x1 y1 x2 y2 : Qc) :
  normalize x1 y1 x2 y2 = normalize x2 y2 x1 y1.
Proof.
  unfold normalize.
  now rewrite (qmin_comm x1), (qmin_comm y1), (qmax_comm x1), (qmax_comm y1).
Qed.

Lemma on_mouse_drag_nothing (a : App) (x y : Qc) : step a (MouseDrag x y) = a.
Proof.
  unfold step, handler, on_mouse_drag. unfold_monad. simpl.
  destruct (selection_start a); reflexivity.
Qed.

Lemma drags_nothing (a : App) (path : list (Qc * Qc)) :
  run_events a (map (fun q => MouseDrag (fst q) (snd q)) path) = a.
Proof.
  unfold run_events. induction path as [|q path IH]; simpl; [reflexivity|].
  now rewrite on_mouse_drag_nothing.
Qed.

Lemma gesture_selection_rect (a : App) (img : Image) (p r : Qc * Qc)
    (path : list (Qc * Qc)) :
  current_image a = Some img ->
  selection_rect (run_events a (gesture p path r))
  = Some (normalize (fst p) (snd p) (fst r) (snd r)).
Proof.
  intros Hi. unfold gesture, run_events. simpl. rewrite fold_left_app.
  fold (run_events (step a (MousePress (fst p) (snd p)))
          (map (fun q => MouseDrag (fst q) (snd q)) path)).
  rewrite drags_nothing. simpl.
  unfold step, handler, on_mouse_press, on_mouse_release.
  unfold_monad. simpl. rewrite Hi. reflexivity.
Qed.

(** C5: on a displayed bitmap, a press at P1, any dragging, and a release
    at P2 leave a rectangle (x1, y1, x2, y2) with x1 <= x2 and y1 <= y2,
    and a press at P2 with a release at P1 leaves the same rectangle. *)
Theorem selection_normalized_symmetric (a : App) (img : Image)
    (p1 p2 : Qc * Qc) (path path' : list (Qc * Qc)) :
  current_image a = Some img ->
  exists x1 y1 x2 y2 : Qc,
    selection_rect (run_events a (gesture p1 path p2)) = Some (x1, y1, x2, y2)
    /\ (x1 <= x2)%Qc /\ (y1 <= y2)%Qc
    /\ selection_rect (run_events a (gesture p2 path' p1))
       = Some (x1, y1, x2, y2).
Proof.
  intros Hi.
  exists (qmin (fst p1) (fst p2)), (qmin (snd p1) (snd p2)),
         (qmax (fst p1) (fst p2)), (qmax (snd p1) (snd p2)).
  rewrite !(gesture_selection_rect a img) by exact Hi.
  repeat split; try apply qmin_le_qmax.
  now rewrite (normalize_swap (fst p2)).
Qed.

(** *** Saving *)

Lemma lstrip_split (s : pystr) :
  exists lead, s = lead ++ lstrip s /\ forallb isspace lead = true.
Proof.
  induction s as [|c s [lead [E F]]]; simpl.
  - now exists [].
  - destruct (isspace c) eqn:Hc.
    + exists (c :: lead). simpl. rewrite Hc, F. split; [congruence|reflexivity].
    + now exists [].
Qed.

Lemma lstrip_head (s : pystr) : starts_with_space (lstrip s) = false.
Proof.
  induction s as [|c s IH]; simpl; [reflexivity|].
  destruct (isspace c) eqn:Hc; [exact IH|]. simpl. exact Hc.
Qed.

Lemma rstrip_split (s : pystr) :
  exists tail, s = rstrip s ++ tail /\ forallb isspace tail = true.
Proof.
  unfold rstrip. destruct (lstrip_split (rev s)) as [lead [E F]].
  exists (rev lead). split.
  - rewrite <- rev_app_distr, <- E. now rewrite rev_involutive.
  - rewrite forallb_forall in *. intros x Hx. apply F. now apply in_rev.
Qed.

Lemma rstrip_end (s : pystr) : ends_with_space (rstrip s) = false.
Proof.
  unfold ends_with_space, rstrip. rewrite rev_involutive. apply lstrip_head.
Qed.

Lemma rstrip_head (s : pystr) :
  starts_with_space s = false -> starts_with_space (rstrip s) = false.
Proof.
  intros H. destruct (rstrip_split s) as [tail [E F]].
  destruct (rstrip s) as [|c r] eqn:R; [reflexivity|].
  rewrite E in H. exact H.
Qed.

Lemma strip_split (s : pystr) :
  exists lead tail, s = lead ++ strip s ++ tail
    /\ forallb isspace lead = true /\ forallb isspace tail = true.
Proof.
  destruct (lstrip_split s) as [lead [E F]].
  destruct (rstrip_split (lstrip s)) as [tail [E' F']].
  exists lead, tail. unfold strip. now rewrite <- E', <- E.
Qed.

Lemma strip_ends (s : pystr) :
  starts_with_space (strip s) = false /\ ends_with_space (strip s) = false.
Proof.
  unfold strip. split; [apply rstrip_head, lstrip_head | apply rstrip_end].
Qed.

Lemma truthy_nil (s : pystr) : truthy s = false <-> s = [].
Proof. destruct s; simpl; split; congruence. Qed.

(** C10: [save_text] works on the text of the pane without its leading and
    trailing whitespace, which is never the pane content as read; when that
    text is empty there is a warning and nothing else, no save dialog and no
    write; otherwise the only write puts exactly that text in the chosen
    file. *)
Theorem save_text_writes_stripped (a : App) (file_path : pystr) :
  let text := strip (text_output_get a) in
  let a' := step a (ClickSaveText file_path) in
  (exists lead tail, text_output_get a = lead ++ text ++ tail
     /\ forallb isspace lead = true /\ forallb isspace tail = true)
  /\ starts_with_space text = false
  /\ ends_with_space text = false
  /\ text <> text_output_get a
  /\ (text = [] ->
      trace a' = trace a ++ [ShowWarning (lit "Warning") (lit "No text to save.")])
  /\ (text <> [] -> file_path = [] ->
      trace a' = trace a ++ [AskSaveAsFilename])
  /\ (text <> [] -> file_path <> [] ->
      trace a' = trace a ++ [AskSaveAsFilename; WriteFile file_path text]
                   ++ save_failed (write_file file_path text)).
Proof.
  intros text a'. subst a'.
  destruct (strip_ends (text_output_get a)) as [Hs He]. fold text in Hs, He.
  split; [apply strip_split|]. split; [exact Hs|]. split; [exact He|].
  split.
  { intros E. rewrite E in He. unfold ends_with_space, text_output_get in He.
    rewrite rev_app_distr in He. simpl in He. discriminate. }
  unfold step, handler, save_text. unfold_monad. simpl. fold text.
  repeat split.
  - intros ->. reflexivity.
  - intros Ht ->. destruct text; [congruence|]. reflexivity.
  - intros Ht Hp. destruct text as [|c t]; [congruence|].
    destruct file_path as [|q fp]; [congruence|]. simpl.
    destruct (write_file (q :: fp) (c :: t)); simpl;
      rewrite <- !app_assoc; reflexivity.
Qed.

(** *** What the OCR operations leave alone *)

Lemma perform_ocr_frame (image : Image) (name : pystr) (s : App) :
  let s' := snd (perform_ocr image name s) in
  shell_view s' = shell_view s /\ text_output s' = text_output s
  /\ status_var s' = status_var s.
Proof.
  unfold perform_ocr, _tesseract_ocr, _easyocr_ocr, _windows_ocr,
    get_easyocr_reader, shell_view.
  run_method.
Qed.

Lemma ocr_pages_frame (engine : pystr) (pages : list Z) :
  forall (acc : list pystr) (s : App),
    shell_view (snd (ocr_pages engine pages acc s)) = shell_view s
    /\ text_output (snd (ocr_pages engine pages acc s)) = text_output s.
Proof.
  induction pages as [|p pages IH]; intros acc s; simpl; [now split|].
  unfold_monad. simpl.
  destruct (pdf_document s) as [d|] eqn:Hd; simpl; [|now split].
  unfold render. unfold_monad. simpl.
  destruct (get_pixmap d p _ _) as [img|e]; simpl; [|now split].
  match goal with
  | |- context [perform_ocr img engine ?s0] =>
      pose proof (perform_ocr_frame img engine s0) as F;
      destruct (perform_ocr img engine s0) as [[t|e] s1]
  end; simpl in F; destruct F as [F1 [F2 F3]].
  - destruct (IH (acc ++ [page_section p t]) s1) as [G1 G2].
    rewrite G1, G2, F1, F2. now split.
  - simpl. rewrite F1, F2. now split.
Qed.

Lemma ocr_current_page_frame (a : App) :
  shell_view (step a ClickOcrCurrentPage) = shell_view a.
Proof.
  unfold step, handler, ocr_current_page, open_first, ocr_failed,
    display_ocr_result.
  unfold_monad. simpl.
  destruct (current_image a) as [image|] eqn:Hi; simpl;
    [|unfold shell_view; simpl; now rewrite Hi].
  match goal with
  | |- context [perform_ocr image ?e ?s0] =>
      pose proof (perform_ocr_frame image e s0) as F;
      destruct (perform_ocr image e s0) as [[t|ex] s1]
  end; simpl in F; destruct F as [F1 _]; simpl; exact F1.
Qed.

Lemma ocr_selection_frame (a : App) :
  shell_view (step a ClickOcrSelection) = shell_view a.
Proof.
  unfold step, handler, ocr_selection, open_first, select_first, ocr_failed,
    display_ocr_result.
  unfold_monad. simpl.
  destruct (current_image a) as [image|] eqn:Hi; simpl;
    [|unfold shell_view; simpl; now rewrite Hi].
  destruct (selection_rect a) as [[[[x1 y1] x2] y2]|] eqn:Hr; simpl;
    [|unfold shell_view; simpl; now rewrite Hi, Hr].
  match goal with
  | |- context [perform_ocr ?i ?e ?s0] =>
      pose proof (perform_ocr_frame i e s0) as F;
      destruct (perform_ocr i e s0) as [[t|ex] s1]
  end; simpl in F; destruct F as [F1 _]; simpl; exact F1.
Qed.

Lemma ocr_entire_document_frame (a : App) :
  shell_view (step a ClickOcrEntireDocument) = shell_view a.
Proof.
  unfold step, handler, ocr_entire_document, open_first, ocr_failed,
    display_ocr_result.
  unfold_monad. simpl.
  destruct (pdf_document a) as [d|] eqn:Hd; simpl;
    [|unfold shell_view; simpl; now rewrite Hd].
  match goal with
  | |- context [ocr_pages ?e ?l ?acc ?s0] =>
      destruct (ocr_pages_frame e l acc s0) as [F1 _];
      destruct (ocr_pages e l acc s0) as [[t|ex] s1]
  end; simpl in F1; simpl; exact F1.
Qed.

(** *** Zoom *)

Lemma zoom_in_zoom_level (a : App) :
  zoom_level (step a ClickZoomIn) = fmin 3.0 (zoom_level a + 0.25)%float.
Proof.
  unfold step, handler, zoom_in. unfold_monad. simpl.
  match goal with
  | |- context [display_page ?s0] =>
      pose proof (display_page_frame s0) as F;
      destruct (display_page s0) as [[[]|e] a']
  end; simpl in *; tauto.
Qed.

Lemma zoom_out_zoom_level (a : App) :
  zoom_level (step a ClickZoomOut) = fmax 0.25 (zoom_level a - 0.25)%float.
Proof.
  unfold step, handler, zoom_out. unfold_monad. simpl.
  match goal with
  | |- context [display_page ?s0] =>
      pose proof (display_page_frame s0) as F;
      destruct (display_page s0) as [[[]|e] a']
  end; simpl in *; tauto.
Qed.

Lemma shell_view_zoom_level (a b : App) :
  shell_view a = shell_view b -> zoom_level a = zoom_level b.
Proof. unfold shell_view. congruence. Qed.

(** Only the zoom buttons and a successful open set the zoom level. *)
Lemma step_zoom_level (a : App) (ev : UIEvent) :
  match ev with
  | ClickZoomIn =>
      zoom_level (step a ev) = fmin 3.0 (zoom_level a + 0.25)%float
  | ClickZoomOut =>
      zoom_level (step a ev) = fmax 0.25 (zoom_level a - 0.25)%float
  | ClickOpen _ =>
      zoom_level (step a ev) = 1.0%float
      \/ zoom_level (step a ev) = zoom_level a
  | _ => zoom_level (step a ev) = zoom_level a
  end.
Proof.
  destruct ev.
  - unfold step, handler, open_pdf, display_page, render. run_method.
  - unfold step, handler, prev_page, display_page, render. run_method.
  - unfold step, handler, next_page, display_page, render. run_method.
  - apply zoom_in_zoom_level.
  - apply zoom_out_zoom_level.
  - unfold step, handler, on_mouse_press. run_method.
  - unfold step, handler, on_mouse_drag. run_method.
  - unfold step, handler, on_mouse_release. run_method.
  - reflexivity.
  - unfold step, handler, save_text. run_method.
  - unfold step, handler. run_method.
  - apply shell_view_zoom_level, ocr_current_page_frame.
  - apply shell_view_zoom_level, ocr_selection_frame.
  - apply shell_view_zoom_level, ocr_entire_document_frame.
  - reflexivity.
Qed.

Lemma level_zoom_in (k : nat) :
  (k < 12)%nat ->
  fmin 3.0 (level k + 0.25)%float = level (Nat.min (k + 1) 11)
  /\ (k < 11 -> level (k + 1) = (level k + 0.25)%float)%nat.
Proof.
  intros H.
  do 12 (destruct k as [|k];
         [split; [reflexivity|intros L; first [reflexivity|lia]]|]).
  lia.
Qed.

Lemma level_zoom_out (k : nat) :
  (k < 12)%nat ->
  fmax 0.25 (level k - 0.25)%float = level (k - 1)
  /\ (0 < k -> level (k - 1) = (level k - 0.25)%float)%nat.
Proof.
  intros H.
  do 12 (destruct k as [|k];
         [split; [reflexivity|intros L; first [reflexivity|lia]]|]).
  lia.
Qed.

Lemma level_bounds (k : nat) :
  (k < 12)%nat ->
  (0.25 <=? level k)%float = true /\ (level k <=? 3.0)%float = true.
Proof.
  intros H. do 12 (destruct k as [|k]; [split; reflexivity|]). lia.
Qed.

Lemma init_initial_app (a : App) :
  init = Return a ->
  exists engines first, a = initial_app engines first.
Proof.
  unfold init, obind. destruct get_available_engines as [[|first l]|e];
    try discriminate.
  intros [= <-]. eauto.
Qed.

Lemma reachable_zoom_level (a : App) :
  reachable a -> exists k, (k < 12)%nat /\ zoom_level a = level k.
Proof.
  induction 1 as [a Hi|a ev _ [k [Hk Hz]]].
  - destruct (init_initial_app a Hi) as [engines [first ->]].
    exists 3%nat. split; [lia|reflexivity].
  - pose proof (step_zoom_level a ev) as S.
    destruct ev; try (exists k; split; [exact Hk|congruence]).
    + destruct S as [S|S]; [exists 3%nat; split; [lia|exact S]|].
      exists k. split; [exact Hk|congruence].
    + exists (Nat.min (k + 1) 11). split; [lia|].
      rewrite S, Hz. now apply level_zoom_in.
    + exists (k - 1)%nat. split; [lia|].
      rewrite S, Hz. now apply level_zoom_out.
Qed.

Lemma clicks_S (ev : UIEvent) (n : nat) (a : App) :
  clicks ev (S n) a = clicks ev n (step a ev).
Proof. reflexivity. Qed.

Lemma clicks_zoom_in (n : nat) :
  forall (a : App) (k : nat),
    (k < 12)%nat -> zoom_level a = level k ->
    zoom_level (clicks ClickZoomIn n a) = level (Nat.min (k + n) 11).
Proof.
  induction n as [|n IH]; intros a k Hk Hz.
  - unfold clicks. simpl. rewrite Hz. f_equal. lia.
  - rewrite clicks_S.
    rewrite (IH (step a ClickZoomIn) (Nat.min (k + 1) 11)).
    + f_equal. lia.
    + lia.
    + rewrite zoom_in_zoom_level, Hz. now apply level_zoom_in.
Qed.

Lemma clicks_zoom_out (n : nat) :
  forall (a : App) (k : nat),
    (k < 12)%nat -> zoom_level a = level k ->
    zoom_level (clicks ClickZoomOut n a) = level (k - n).
Proof.
  induction n as [|n IH]; intros a k Hk Hz.
  - unfold clicks. simpl. rewrite Hz. f_equal. lia.
  - rewrite clicks_S.
    rewrite (IH (step a ClickZoomOut) (k - 1)%nat).
    + f_equal. lia.
    + lia.
    + rewrite zoom_out_zoom_level, Hz. now apply level_zoom_out.
Qed.

(** C7: the zoom level of a new object is 1.0, and whatever the user does
    afterwards it is one of the twelve levels 0.25, 0.5, ..., 3.0, hence
    within [0.25, 3.0]; zoom-in adds exactly 0.25 below 3.0 and stays at
    3.0 there, zoom-out subtracts exactly 0.25 above 0.25 and stays at 0.25
    there, so eleven or more clicks on either button end at the bound. *)
Theorem zoom_stays_on_levels :
  (forall a0 : App, init = Return a0 -> zoom_level a0 = 1.0%float)
  /\ (forall a : App, reachable a ->
      exists k : nat,
        (k < 12)%nat /\ zoom_level a = level k
        /\ (0.25 <=? zoom_level a)%float = true
        /\ (zoom_level a <=? 3.0)%float = true
        /\ zoom_level (step a ClickZoomIn)
           = (if (k <? 11)%nat then (zoom_level a + 0.25)%float
              else 3.0%float)
        /\ zoom_level (step a ClickZoomOut)
           = (if (0 <? k)%nat then (zoom_level a - 0.25)%float
              else 0.25%float)
        /\ (forall n : nat,
             zoom_level (clicks ClickZoomIn n a) = level (Nat.min (k + n) 11)
             /\ zoom_level (clicks ClickZoomOut n a) = level (k - n))
        /\ (forall n : nat, (11 <= n)%nat ->
             zoom_level (clicks ClickZoomIn n a) = 3.0%float
             /\ zoom_level (clicks ClickZoomOut n a) = 0.25%float)).
Proof.
  split.
  - intros a0 Hi. destruct (init_initial_app a0 Hi) as [e [f ->]]. reflexivity.
  - intros a Hr. destruct (reachable_zoom_level a Hr) as [k [Hk Hz]].
    exists k. destruct (level_bounds k Hk) as [B1 B2].
    destruct (level_zoom_in k Hk) as [I1 I2].
    destruct (level_zoom_out k Hk) as [O1 O2].
    repeat split; try assumption; try (rewrite Hz; assumption).
    + rewrite zoom_in_zoom_level, Hz, I1.
      destruct (Nat.ltb_spec k 11) as [L|L].
      * rewrite <- I2 by exact L. f_equal. lia.
      * replace k with 11%nat by lia. reflexivity.
    + rewrite zoom_out_zoom_level, Hz, O1.
      destruct (Nat.ltb_spec 0 k) as [L|L].
      * now apply O2.
      * replace k with 0%nat by lia. reflexivity.
    + now apply clicks_zoom_in.
    + now apply clicks_zoom_out.
    + rewrite (clicks_zoom_in n a k Hk Hz).
      replace (Nat.min (k + n) 11) with 11%nat by lia. reflexivity.
    + rewrite (clicks_zoom_out n a k Hk Hz).
      replace (k - n)%nat with 0%nat by lia. reflexivity.
Qed.

(** *** OCR of the selection *)

Lemma perform_ocr_trace (image : Image) (name : pystr) (s : App) :
  exists calls,
    trace (snd (perform_ocr image name s))
    = trace s ++ PerformOcr image name :: calls
    /\ existsb is_warning calls = false.
Proof.
  destruct (in_dec (list_eq_dec N.eq_dec) name
              [TESSERACT; EASYOCR; WINDOWS_OCR]) as [Hin|Hout].
  - destruct (perform_ocr_known_trace image name s Hin) as [b Hb].
    exists [EngineCall b image]. rewrite Hb. unfold entered. simpl.
    now rewrite <- app_assoc.
  - exists []. now rewrite (perform_ocr_unknown image name s Hout).
Qed.

(** C4: "OCR Selection" answers with a warning and no call of the adapter
    or of a backend exactly when there is no bitmap or no selection
    rectangle, and then the warning is all it does; with a bitmap and a
    rectangle it crops the bitmap to the truncated bounds of the rectangle
    and calls the adapter on the cropped bitmap, without any warning. *)
Theorem ocr_selection_warns_iff_no_selection (a : App) :
  exists new : list Effect,
    trace (step a ClickOcrSelection) = trace a ++ new
    /\ ((existsb is_warning new = true /\ existsb is_perform_ocr new = false
         /\ existsb is_engine_call new = false)
        <-> (current_image a = None \/ selection_rect a = None))
    /\ (current_image a = None \/ selection_rect a = None ->
        exists title message, new = [ShowWarning title message])
    /\ (forall image x1 y1 x2 y2,
          current_image a = Some image ->
          selection_rect a = Some (x1, y1, x2, y2) ->
          let cropped := crop image (int_trunc x1) (int_trunc y1)
                           (int_trunc x2) (int_trunc y2) in
          exists rest,
            new = Crop image (int_trunc x1) (int_trunc y1)
                    (int_trunc x2) (int_trunc y2)
                  :: PerformOcr cropped (selected_engine a) :: rest
            /\ existsb is_warning new = false).
Proof.
  unfold step, handler, ocr_selection, open_first, select_first, ocr_failed,
    display_ocr_result.
  unfold_monad. simpl.
  destruct (current_image a) as [image|] eqn:Hi; simpl.
  2:{ eexists. split; [reflexivity|]. simpl.
      repeat split; eauto; intros; discriminate. }
  destruct (selection_rect a) as [[[[x1 y1] x2] y2]|] eqn:Hr; simpl.
  2:{ eexists. split; [reflexivity|]. simpl.
      repeat split; eauto; intros; discriminate. }
  match goal with
  | |- context [perform_ocr ?i ?e ?s0] =>
      destruct (perform_ocr_trace i e s0) as [calls [Ht Hw]];
      destruct (perform_ocr i e s0) as [[t|ex] s1]
  end; simpl in Ht; simpl; rewrite Ht.
  - exists (Crop image (int_trunc x1) (int_trunc y1) (int_trunc x2) (int_trunc y2)
            :: PerformOcr (crop image (int_trunc x1) (int_trunc y1)
                             (int_trunc x2) (int_trunc y2)) (selected_engine a)
            :: calls).
    split; [now rewrite <- app_assoc|]. simpl. rewrite Hw.
    split; [split; [intros [? _]; discriminate|intros [?|?]; discriminate]|].
    split; [intros [?|?]; discriminate|].
    intros i' a1 b1 a2 b2 [= <-] [= <- <- <- <-]. eauto.
  - exists (Crop image (int_trunc x1) (int_trunc y1) (int_trunc x2) (int_trunc y2)
            :: PerformOcr (crop image (int_trunc x1) (int_trunc y1)
                             (int_trunc x2) (int_trunc y2)) (selected_engine a)
            :: calls ++ [ShowError (lit "OCR Error") (exn_str ex)]).
    split; [now rewrite <- !app_assoc|]. simpl.
    rewrite existsb_app, Hw. simpl.
    split; [split; [intros [? _]; discriminate|intros [?|?]; discriminate]|].
    split; [intros [?|?]; discriminate|].
    intros i' a1 b1 a2 b2 [= <-] [= <- <- <- <-]. eexists. split; reflexivity.
Qed.

(** *** The selection and the displayed bitmap *)


(** Only the navigation buttons and a successful open set the page. *)
Lemma step_current_page (a : App) (ev : UIEvent) :
  match ev with
  | ClickOpen _ | ClickPrev | ClickNext => True
  | _ => current_page (step a ev) = current_page a
  end.
Proof.
  assert (V : shell_view (step a ev) = shell_view a ->
              current_page (step a ev) = current_page a).
  { unfold shell_view. congruence. }
  destruct ev; try exact I.
  - unfold step, handler, zoom_in, display_page, render. run_method.
  - unfold step, handler, zoom_out, display_page, render. run_method.
  - unfold step, handler, on_mouse_press. run_method.
  - unfold step, handler, on_mouse_drag. run_method.
  - unfold step, handler, on_mouse_release. run_method.
  - reflexivity.
  - unfold step, handler, save_text. run_method.
  - unfold step, handler. run_method.
  - apply V, ocr_current_page_frame.
  - apply V, ocr_selection_frame.
  - apply V, ocr_entire_document_frame.
  - reflexivity.
Qed.




(** *** The page index in every reachable state *)

(** Only a successful open sets the page count. *)
Lemma step_total_pages (a : App) (ev : UIEvent) :
  match ev with
  | ClickOpen _ => True
  | _ => total_pages (step a ev) = total_pages a
  end.
Proof.
  assert (V : shell_view (step a ev) = shell_view a ->
              total_pages (step a ev) = total_pages a).
  { unfold shell_view. congruence. }
  destruct ev; try exact I.
  - apply prev_page_total_pages.
  - apply next_page_total_pages.
  - unfold step, handler, zoom_in, display_page, render. run_method.
  - unfold step, handler, zoom_out, display_page, render. run_method.
  - unfold step, handler, on_mouse_press. run_method.
  - unfold step, handler, on_mouse_drag. run_method.
  - unfold step, handler, on_mouse_release. run_method.
  - reflexivity.
  - unfold step, handler, save_text. run_method.
  - unfold step, handler. run_method.
  - apply V, ocr_current_page_frame.
  - apply V, ocr_selection_frame.
  - apply V, ocr_entire_document_frame.
  - reflexivity.
Qed.

Lemma open_pdf_page_index (a : App) (file_path : pystr) :
  let a' := step a (ClickOpen file_path) in
  (current_page a' = current_page a /\ total_pages a' = total_pages a)
  \/ (current_page a' = 0 /\ 0 <= total_pages a').
Proof.
  unfold step, handler, open_pdf, display_page, render.
  unfold_monad; simpl; repeat (break_match; simpl);
    try (left; split; reflexivity); right; split; lia.
Qed.

Lemma step_page_valid (a : App) (ev : UIEvent) :
  page_valid a -> page_valid (step a ev).
Proof.
  unfold page_valid. intros H.
  pose proof (step_current_page a ev) as P.
  pose proof (step_total_pages a ev) as T.
  destruct ev; try (rewrite P, T; exact H).
  - destruct (open_pdf_page_index a file_path) as [[-> ->]|[-> Ht]];
      [exact H|lia].
  - rewrite T, prev_page_current_page.
    destruct (is_some (pdf_document a)), (Z.gtb_spec (current_page a) 0);
      simpl; lia.
  - rewrite T, next_page_current_page.
    destruct (is_some (pdf_document a)),
      (Z.ltb_spec (current_page a) (total_pages a - 1)); simpl; lia.
Qed.

(** Whatever the user does, the page index stays a page of the open
    document (or 0 while there is no page to show). *)
Lemma reachable_page_valid (a : App) : reachable a -> page_valid a.
Proof.
  induction 1 as [a Hi|a ev _ IH].
  - destruct (init_initial_app a Hi) as [e [f ->]]. unfold page_valid.
    simpl. lia.
  - now apply step_page_valid.
Qed.

(** *** OCR of the whole document *)


Lemma perform_ocr_backend_trace (image : Image) (name : pystr) (b : Backend)
    (s : App) :
  backend_of name = Some b ->
  trace (snd (perform_ocr image name s))
  = trace s ++ [PerformOcr image name; EngineCall b image].
Proof.
  unfold backend_of.
  destruct (pystr_eqb name TESSERACT) eqn:E1;
    [apply pystr_eqb_eq in E1; subst name; intros [= <-];
     rewrite perform_ocr_tesseract, _tesseract_ocr_trace; unfold entered;
     simpl; now rewrite <- app_assoc|].
  destruct (pystr_eqb name EASYOCR) eqn:E2;
    [apply pystr_eqb_eq in E2; subst name; intros [= <-];
     rewrite perform_ocr_easyocr, _easyocr_ocr_trace; unfold entered;
     simpl; now rewrite <- app_assoc|].
  destruct (pystr_eqb name WINDOWS_OCR) eqn:E3;
    [apply pystr_eqb_eq in E3; subst name; intros [= <-];
     rewrite perform_ocr_windows, _windows_ocr_trace; unfold entered;
     simpl; now rewrite <- app_assoc|].
  discriminate.
Qed.




(** *** Opening a document *)

(** What a failed open leaves behind: the handle of the previous document
    is still installed, closed. *)
Lemma open_pdf_fitz_open_raises (a : App) (file_path : pystr) (e : Exn) :
  file_path <> [] ->
  fitz_open file_path = Raise e ->
  step a (ClickOpen file_path)
  = set_trace
      (trace a ++ [AskOpenFilename; FitzOpen file_path;
                   ShowError (lit "Error")
                     (lit "Failed to open PDF: " ++ exn_str e)])
      (set_pdf_document (option_map close (pdf_document a)) a).
Proof.
  intros Hp Hf. unfold step, handler, open_pdf. unfold_monad. simpl.
  destruct file_path as [|c r]; [congruence|]. simpl.
  destruct (pdf_document a) as [d|] eqn:Hd; simpl; rewrite Hf; simpl;
    unfold set_trace, set_pdf_document; simpl; rewrite <- !app_assoc; simpl;
    try rewrite Hd; reflexivity.
Qed.

(** When the document opens and its first page does not render, the new
    document is installed all the same, behind the same error dialog. *)
Lemma open_pdf_render_raises (a : App) (file_path : pystr) (n : nat) (e : Exn) :
  let d := mkDocument file_path (Z.of_nat n) false in
  file_path <> [] ->
  fitz_open file_path = Return n ->
  get_pixmap d 0 1.5%float 1.5%float = Raise e ->
  let a' := step a (ClickOpen file_path) in
  pdf_document a' = Some d
  /\ total_pages a' = Z.of_nat n /\ current_page a' = 0
  /\ zoom_level a' = 1.0%float
  /\ current_image a' = current_image a
  /\ trace a'
     = trace a ++ [AskOpenFilename; FitzOpen file_path;
                   GetPixmap d 0 1.5%float 1.5%float;
                   ShowError (lit "Error")
                     (lit "Failed to open PDF: " ++ exn_str e)].
Proof.
  intros d Hp Hf Hr. unfold step, handler, open_pdf, display_page, render.
  unfold_monad. destruct file_path as [|c r]; [congruence|]. cbn.
  destruct (pdf_document a) as [d0|] eqn:Hd; cbn; rewrite Hf; cbn;
    fold d; rewrite Hr; cbn; rewrite <- ?app_assoc;
    repeat (split; [try rewrite Hd; reflexivity|]); reflexivity.
Qed.

End MethodProperties.

(** ** [int(...)] truncates toward zero *)

Lemma int_trunc_toward_zero (x : Qc) :
  let n := Qnum x in
  let d := Z.pos (Qden x) in
  (0 <= n -> int_trunc x * d <= n < (int_trunc x + 1) * d)
  /\ (n <= 0 -> (int_trunc x - 1) * d < n <= int_trunc x * d).
Proof.
  intros n d. unfold int_trunc. fold n d.
  assert (Hd : 0 < d) by (unfold d; lia).
  pose proof (Z.quot_rem' n d) as E.
  split; intros H.
  - pose proof (Z.rem_bound_pos n d H Hd). nia.
  - assert (Hn : Z.rem n d <= 0) by (apply Z.rem_nonpos; lia).
    pose proof (Z.rem_bound_abs n d ltac:(lia)) as B. nia.
Qed.

Example int_trunc_examples :
  int_trunc (Q2Qc (5 # 2)) = 2 /\ int_trunc (Q2Qc (-5 # 2)) = -2
  /\ int_trunc (Q2Qc (7 # 1)) = 7.
Proof. repeat split. Qed.

(** ** A logic of the methods *)

Section Keeps.
Context {W : World}.
Variable R : App -> App -> Prop.
Hypothesis R_refl : forall s, R s s.
Hypothesis R_trans : forall s1 s2 s3, R s1 s2 -> R s2 s3 -> R s1 s3.

Lemma keeps_ret {A : Type} (x : A) : keeps R (ret x).
Proof. intros s. apply R_refl. Qed.

Lemma keeps_gets {A : Type} (f : App -> A) : keeps R (gets f).
Proof. intros s. apply R_refl. Qed.

Lemma keeps_call {A : Type} (o : Outcome A) : keeps R (call o).
Proof. intros s. apply R_refl. Qed.

Lemma keeps_raise {A : Type} (e : Exn) : keeps R (@raise W A e).
Proof. intros s. apply R_refl. Qed.

Lemma keeps_modify (f : App -> App) :
  (forall s, R s (f s)) -> keeps R (modify f).
Proof. intros H s. apply H. Qed.

Lemma keeps_bind {A B : Type} (m : M A) (k : A -> M B) :
  keeps R m -> (forall x, keeps R (k x)) -> keeps R (bind m k).
Proof.
  intros Hm Hk s. unfold bind. specialize (Hm s).
  destruct (m s) as [[x|e] s']; simpl in *; [|exact Hm].
  exact (R_trans _ _ _ Hm (Hk x s')).
Qed.

Lemma keeps_try_except {A : Type} (body : M A) (handle : Exn -> M A) :
  keeps R body -> (forall e, keeps R (handle e)) ->
  keeps R (try_except body handle).
Proof.
  intros Hm Hk s. unfold try_except. specialize (Hm s).
  destruct (body s) as [[x|e] s']; simpl in *; [exact Hm|].
  exact (R_trans _ _ _ Hm (Hk e s')).
Qed.

End Keeps.

(** Walks through a method, leaving the assignments to [on_modify]. *)
Ltac keep_going refl trans on_modify :=
  repeat first
    [ apply (keeps_ret _ refl)
    | apply (keeps_gets _ refl)
    | apply (keeps_call _ refl)
    | apply (keeps_raise _ refl)
    | apply (keeps_bind _ trans); [|intro]
    | apply (keeps_try_except _ trans); [|intro]
    | apply keeps_modify; on_modify
    | match goal with
      | |- keeps _ (match ?x with _ => _ end) => destruct x
      end
    | progress cbv zeta ].

Section Footprints.
Context {W : World}.

Lemma extends_trace_refl (P : Effect -> bool) (s : App) : extends_trace P s s.
Proof. exists []. split; [now rewrite app_nil_r|reflexivity]. Qed.

Lemma extends_trace_trans (P : Effect -> bool) (s1 s2 s3 : App) :
  extends_trace P s1 s2 -> extends_trace P s2 s3 -> extends_trace P s1 s3.
Proof.
  intros [n1 [E1 F1]] [n2 [E2 F2]]. exists (n1 ++ n2). split.
  - now rewrite E2, E1, app_assoc.
  - now rewrite forallb_app, F1, F2.
Qed.

End Footprints.

Ltac footprint_modify :=
  intros s;
  first [ exists []; split; [simpl; now rewrite app_nil_r|reflexivity]
        | eexists [_]; split; reflexivity ].

Ltac footprints P :=
  keep_going (extends_trace_refl P) (extends_trace_trans P) footprint_modify.

(** ** What each event does to the outside world *)

Section EventFootprints.
Context {W : World}.
Local Open Scope app_scope.

Lemma ocr_pages_footprint (P : Effect -> bool) (engine : pystr)
    (pages : list Z) :
  (forall d p zx zy, P (GetPixmap d p zx zy) = true) ->
  (forall i n, P (PerformOcr i n) = true) ->
  (forall b i, P (EngineCall b i) = true) ->
  forall acc, keeps (extends_trace P) (ocr_pages engine pages acc).
Proof.
  intros H0 H1 H2.
  induction pages as [|p pages IH]; intros acc; simpl.
  - apply (keeps_ret _ (extends_trace_refl P)).
  - unfold render. footprints P;
      try (intros s0; eexists [_]; split;
           [reflexivity|simpl; now rewrite ?H0, ?H1, ?H2]).
    apply IH.
Qed.

(** Each event reaches the outside world only through the calls of its
    footprint. *)
Lemma handler_footprint (ev : UIEvent) :
  keeps (extends_trace (footprint ev)) (handler ev).
Proof.
  destruct ev; unfold handler;
    unfold open_pdf, prev_page, next_page, zoom_in, zoom_out, display_page,
      render, on_mouse_press, on_mouse_drag, on_mouse_release,
      clear_selection, save_text, ocr_current_page, ocr_selection,
      ocr_entire_document, open_first, select_first, ocr_failed,
      display_ocr_result;
    match goal with
    | |- keeps (extends_trace ?P) _ =>
        footprints P; try (apply ocr_pages_footprint; intros; reflexivity)
    end.
Qed.

End EventFootprints.

Section EventEffects.
Context {W : World}.
Local Open Scope app_scope.

Lemma step_footprint (a : App) (ev : UIEvent) (new : list Effect) :
  trace (step a ev) = trace a ++ new -> forallb (footprint ev) new = true.
Proof.
  intros H. destruct (handler_footprint ev a) as [new' [E F]].
  unfold step, run in H. rewrite E in H. apply app_inv_head in H.
  now subst new'.
Qed.

Lemma forallb_existsb_false {A : Type} (P Q : A -> bool) (l : list A) :
  (forall x, P x = true -> Q x = false) ->
  forallb P l = true -> existsb Q l = false.
Proof.
  intros H. induction l as [|x l IH]; simpl; [reflexivity|].
  intros F. apply andb_prop in F. destruct F as [F1 F2].
  now rewrite (H x F1), IH.
Qed.

(** Only "Save Text" opens the save dialog or writes a file. *)
Theorem only_save_text_writes_files (a : App) (ev : UIEvent)
    (new : list Effect) :
  trace (step a ev) = trace a ++ new ->
  existsb is_write new = true \/ existsb is_save_dialog new = true ->
  exists file_path, ev = ClickSaveText file_path.
Proof.
  intros H Hw. apply step_footprint in H.
  destruct ev; try (eexists; reflexivity); exfalso;
    assert (existsb is_write new = false /\ existsb is_save_dialog new = false)
      as [N1 N2]
      by (split;
          (eapply forallb_existsb_false; [|exact H]);
          intros [] E; try reflexivity; discriminate E);
    rewrite N1, N2 in Hw; destruct Hw; discriminate.
Qed.

(** Only the three OCR buttons crop a bitmap, call the adapter or reach a
    backend. *)
Theorem only_ocr_buttons_run_ocr (a : App) (ev : UIEvent) (new : list Effect) :
  trace (step a ev) = trace a ++ new ->
  existsb (fun e => is_perform_ocr e || is_engine_call e || is_crop e) new
  = true ->
  ev = ClickOcrCurrentPage \/ ev = ClickOcrSelection
  \/ ev = ClickOcrEntireDocument.
Proof.
  intros H Hw. apply step_footprint in H.
  destruct ev; try tauto; exfalso;
    assert (N : existsb (fun e => is_perform_ocr e || is_engine_call e
                                  || is_crop e) new = false)
      by ((eapply forallb_existsb_false; [|exact H]);
          intros [] E; try reflexivity; discriminate E);
    rewrite N in Hw; discriminate.
Qed.


End EventEffects.

(** ** The engines on offer *)

Section Engines.
Context {W : World}.
Local Open Scope app_scope.

Lemma get_available_engines_cases (l : list pystr) :
  get_available_engines = Return l ->
  l = [TESSERACT] \/ l = [TESSERACT; EASYOCR] \/ l = [TESSERACT; WINDOWS_OCR]
  \/ l = [TESSERACT; EASYOCR; WINDOWS_OCR].
Proof.
  unfold get_available_engines, try_import_append, obind.
  destruct import_easyocr as [[]|e1]; [|destruct (is_ImportError (exn_class e1))];
    simpl; try discriminate;
    (destruct import_winocr as [[]|e2];
     [|destruct (is_ImportError (exn_class e2))]);
    simpl; intros [= <-]; auto.
Qed.

Lemma engine_info_table_known (name : pystr) :
  dict_get engine_info_table name [] = [] <-> backend_of name = None.
Proof.
  unfold engine_info_table, backend_of. simpl.
  destruct (pystr_eqb name TESSERACT); [split; discriminate|].
  destruct (pystr_eqb name EASYOCR); [split; discriminate|].
  destruct (pystr_eqb name WINDOWS_OCR); [split; discriminate|].
  split; reflexivity.
Qed.

Lemma known_engine_supported (name : pystr) :
  In name [TESSERACT; EASYOCR; WINDOWS_OCR] ->
  backend_of name <> None /\ dict_get engine_info_table name [] <> [].
Proof.
  intros Hin.
  assert (B : backend_of name <> None).
  { simpl in Hin. destruct Hin as [<-|[<-|[<-|[]]]]; discriminate. }
  split; [exact B|]. intros E. now apply engine_info_table_known in E.
Qed.

Lemma get_available_engines_known (l : list pystr) :
  get_available_engines = Return l ->
  hd_error l = Some TESSERACT
  /\ forall name, In name l -> In name [TESSERACT; EASYOCR; WINDOWS_OCR].
Proof.
  intros H.
  destruct (get_available_engines_cases l H) as [->|[->|[->| ->]]];
    (split; [reflexivity|]); intros name Hin; simpl in *; tauto.
Qed.

(** Whatever the registry returns starts with Tesseract, has no engine
    twice, and holds only names that the adapter dispatches and that the
    engine label can describe. *)
Theorem registry_engines_are_supported (l : list pystr) :
  get_available_engines = Return l ->
  hd_error l = Some TESSERACT /\ NoDup l /\ (List.length l <= 3)%nat
  /\ forall name, In name l ->
       backend_of name <> None /\ dict_get engine_info_table name [] <> [].
Proof.
  intros H. destruct (get_available_engines_known l H) as [Hh Hk].
  split; [exact Hh|].
  split; [|split; [|intros name Hin; apply known_engine_supported; auto]].
  - destruct engine_names_distinct as [D1 [D2 D3]].
    destruct (get_available_engines_cases l H) as [->|[->|[->| ->]]];
      repeat constructor; simpl; intuition congruence.
  - destruct (get_available_engines_cases l H) as [->|[->|[->| ->]]];
      simpl; lia.
Qed.

(** The engines on offer never change, and neither does the choice except
    through the combobox. *)
Lemma step_engines (a : App) (ev : UIEvent) :
  available_engines (step a ev) = available_engines a
  /\ match ev with
     | ChooseEngine i =>
         selected_engine (step a ev)
         = nth i (available_engines a) (selected_engine a)
     | _ => selected_engine (step a ev) = selected_engine a
     end.
Proof.
  assert (V : shell_view (step a ev) = shell_view a ->
              available_engines (step a ev) = available_engines a
              /\ selected_engine (step a ev) = selected_engine a).
  { unfold shell_view. intros [= ? ? ? ? ? ? ? ? ?]. auto. }
  destruct ev.
  - unfold step, handler, open_pdf, display_page, render. run_method.
  - unfold step, handler, prev_page, display_page, render. run_method.
  - unfold step, handler, next_page, display_page, render. run_method.
  - unfold step, handler, zoom_in, display_page, render. run_method.
  - unfold step, handler, zoom_out, display_page, render. run_method.
  - unfold step, handler, on_mouse_press. run_method.
  - unfold step, handler, on_mouse_drag. run_method.
  - unfold step, handler, on_mouse_release. run_method.
  - split; reflexivity.
  - unfold step, handler, save_text. run_method.
  - unfold step, handler. unfold_monad. simpl.
    destruct (nth_error (available_engines a) i) as [name|] eqn:E; simpl.
    + split; [reflexivity|]. symmetry. now apply nth_error_nth.
    + split; [reflexivity|]. apply nth_error_None in E.
      now rewrite nth_overflow.
  - apply V, ocr_current_page_frame.
  - apply V, ocr_selection_frame.
  - apply V, ocr_entire_document_frame.
  - split; reflexivity.
Qed.

Lemma reachable_engines (a : App) :
  reachable a ->
  get_available_engines = Return (available_engines a)
  /\ In (selected_engine a) (available_engines a).
Proof.
  induction 1 as [a Hi|a ev _ [IH1 IH2]].
  - unfold init, obind in Hi.
    destruct get_available_engines as [[|first l]|e]; try discriminate.
    injection Hi as <-. simpl. auto.
  - destruct (step_engines a ev) as [E S]. rewrite E. split; [exact IH1|].
    destruct ev; try (rewrite S; exact IH2).
    destruct (nth_in_or_default i (available_engines a) (selected_engine a))
      as [Hin|Hd]; rewrite S; [exact Hin|now rewrite Hd].
Qed.

(** Whatever the user does, the selected engine is one of the engines on
    offer, which are the ones the registry found when the window was built,
    Tesseract being the first choice; so every OCR that the window starts
    reaches a backend, and the engine label is never empty. *)
Theorem selected_engine_is_supported :
  (forall a0 : App, init = Return a0 -> selected_engine a0 = TESSERACT)
  /\ (forall a : App, reachable a ->
       get_available_engines = Return (available_engines a)
       /\ In (selected_engine a) (available_engines a)
       /\ update_engine_info a <> []
       /\ forall (image : Image) (s : App),
            exists b,
              backend_of (selected_engine a) = Some b
              /\ trace (snd (perform_ocr image (selected_engine a) s))
                 = trace s ++ [PerformOcr image (selected_engine a);
                               EngineCall b image]).
Proof.
  split.
  - intros a0 Hi. unfold init, obind in Hi.
    destruct get_available_engines as [l|e] eqn:G; [|discriminate].
    destruct (get_available_engines_known l G) as [Hh _].
    destruct l as [|first l]; [discriminate|]. injection Hi as <-.
    simpl in *. congruence.
  - intros a Hr. destruct (reachable_engines a Hr) as [G Hin].
    destruct (get_available_engines_known _ G) as [_ K].
    destruct (known_engine_supported _ (K _ Hin)) as [B I].
    repeat split; try assumption.
    intros image s. destruct (backend_of (selected_engine a)) as [b|] eqn:Eb;
      [|congruence].
    exists b. split; [reflexivity|]. now apply perform_ocr_backend_trace.
Qed.

(** *** The availability check *)


End Engines.

(** ** Zoom, once more *)

Section Labels.
Context {W : World}.
Local Open Scope app_scope.

(** Whatever the user does, the zoom label would read the exact
    percentage of one of the twelve levels: 25%, 50%, ..., 300%. *)
Theorem zoom_label_shows_quarters (a : App) :
  reachable a ->
  exists k : nat,
    (k < 12)%nat /\ zoom_level a = level k
    /\ update_zoom_label a
       = Some (str_int (25 * (Z.of_nat k + 1)) ++ lit "%").
Proof.
  intros Hr. destruct (reachable_zoom_level a Hr) as [k [Hk Hz]].
  exists k. split; [exact Hk|]. split; [exact Hz|].
  unfold update_zoom_label. rewrite Hz.
  do 12 (destruct k as [|k]; [vm_compute; reflexivity|]). lia.
Qed.

(** Away from the bounds the two zoom buttons undo each other, at the
    bounds they do not; the zoom buttons leave the page index and the page
    count alone, and the page buttons leave the zoom level alone. *)
Theorem zoom_buttons_are_inverse (a : App) :
  reachable a ->
  exists k : nat,
    (k < 12)%nat /\ zoom_level a = level k
    /\ (zoom_level (run_events a [ClickZoomIn; ClickZoomOut]) = zoom_level a
        <-> (k < 11)%nat)
    /\ (zoom_level (run_events a [ClickZoomOut; ClickZoomIn]) = zoom_level a
        <-> (0 < k)%nat)
    /\ current_page (step a ClickZoomIn) = current_page a
    /\ current_page (step a ClickZoomOut) = current_page a
    /\ total_pages (step a ClickZoomIn) = total_pages a
    /\ total_pages (step a ClickZoomOut) = total_pages a
    /\ zoom_level (step a ClickPrev) = zoom_level a
    /\ zoom_level (step a ClickNext) = zoom_level a.
Proof.
  intros Hr. destruct (reachable_zoom_level a Hr) as [k [Hk Hz]].
  exists k. split; [exact Hk|]. split; [exact Hz|].
  split; [|split].
  - unfold run_events. simpl.
    rewrite zoom_out_zoom_level, zoom_in_zoom_level, Hz.
    do 11 (destruct k as [|k]; [split; [lia|reflexivity]|]).
    destruct k as [|k]; [|lia]. split; [|lia].
    vm_compute. intros E. discriminate E.
  - unfold run_events. simpl.
    rewrite zoom_in_zoom_level, zoom_out_zoom_level, Hz.
    destruct k as [|k]; [split; [|lia]; vm_compute; intros E; discriminate E|].
    do 11 (destruct k as [|k]; [split; [lia|reflexivity]|]). lia.
  - repeat split.
    + exact (step_current_page a ClickZoomIn).
    + exact (step_current_page a ClickZoomOut).
    + exact (step_total_pages a ClickZoomIn).
    + exact (step_total_pages a ClickZoomOut).
    + exact (step_zoom_level a ClickPrev).
    + exact (step_zoom_level a ClickNext).
Qed.

End Labels.

(** ** The EasyOCR reader *)

Section Reader.
Context {W : World}.
Local Open Scope app_scope.

Lemma reader_kept_refl (s : App) : reader_kept s s.
Proof. intros H. exact H. Qed.

Lemma reader_kept_trans (s1 s2 s3 : App) :
  reader_kept s1 s2 -> reader_kept s2 s3 -> reader_kept s1 s3.
Proof. unfold reader_kept. auto. Qed.

Ltac reader_modify := intros s H; simpl; first [exact H|reflexivity].

Ltac reader_steps := keep_going reader_kept_refl reader_kept_trans reader_modify.

Lemma ocr_pages_reader_kept (engine : pystr) (pages : list Z) :
  forall acc, keeps reader_kept (ocr_pages engine pages acc).
Proof.
  induction pages as [|p pages IH]; intros acc; simpl.
  - apply (keeps_ret _ reader_kept_refl).
  - unfold render. reader_steps. apply IH.
Qed.

Lemma handler_reader_kept (ev : UIEvent) : keeps reader_kept (handler ev).
Proof.
  destruct ev; unfold handler;
    unfold open_pdf, prev_page, next_page, zoom_in, zoom_out, display_page,
      render, on_mouse_press, on_mouse_drag, on_mouse_release,
      clear_selection, save_text, ocr_current_page, ocr_selection,
      ocr_entire_document, open_first, select_first, ocr_failed,
      display_ocr_result;
    reader_steps; apply ocr_pages_reader_kept.
Qed.

Lemma run_events_reader_kept (evs : list UIEvent) :
  forall a, easyocr_reader a = true -> easyocr_reader (run_events a evs) = true.
Proof.
  unfold run_events. induction evs as [|ev evs IH]; intros a H; simpl;
    [exact H|].
  apply IH. exact (handler_reader_kept ev a H).
Qed.

(** The EasyOCR reader is built lazily and kept: a call that fails while
    importing or building it leaves it unset, so the next call tries again;
    a call that gets past both sets it, whatever the recognition does; once
    set it stays set through every event, and a call then gives the
    paragraphs that [readtext] returns joined by newlines, or the exception
    that [readtext] raises. *)
Theorem easyocr_reader_is_kept (image : Image) (s : App) :
  (easyocr_reader s = false ->
   forall e,
     import_easyocr = Raise e
     \/ (import_easyocr = Return tt /\ easyocr_Reader = Raise e) ->
     fst (_easyocr_ocr image s) = Raise e
     /\ easyocr_reader (snd (_easyocr_ocr image s)) = false)
  /\ (import_easyocr = Return tt -> easyocr_Reader = Return tt ->
      easyocr_reader (snd (_easyocr_ocr image s)) = true)
  /\ (easyocr_reader s = true ->
      easyocr_reader (snd (_easyocr_ocr image s)) = true
      /\ fst (_easyocr_ocr image s)
         = match readtext image with
           | Return results => Return (join [NL] results)
           | Raise e => Raise e
           end)
  /\ (forall evs : list UIEvent,
        easyocr_reader s = true -> easyocr_reader (run_events s evs) = true).
Proof.
  unfold _easyocr_ocr, get_easyocr_reader. unfold_monad. simpl.
  split; [|split; [|split]].
  - intros H e [->|[-> ->]]; rewrite H; simpl; auto.
  - intros -> ->. destruct (easyocr_reader s) eqn:H; simpl;
      destruct (readtext image); simpl; auto.
  - intros H. rewrite H. simpl. destruct (readtext image); auto.
  - intros evs. apply run_events_reader_kept.
Qed.

End Reader.

(** ** The document fields *)

Section Documents.
Context {W : World}.
Local Open Scope app_scope.

Lemma shell_view_document_consistent (a b : App) :
  shell_view b = shell_view a -> document_consistent a -> document_consistent b.
Proof.
  unfold shell_view, document_consistent.
  intros [= -> -> -> -> -> -> _ _ _]. auto.
Qed.

Lemma step_document_consistent (a : App) (ev : UIEvent) :
  document_consistent a -> document_consistent (step a ev).
Proof.
  destruct ev;
    try (apply shell_view_document_consistent;
         first [ apply ocr_current_page_frame | apply ocr_selection_frame
               | apply ocr_entire_document_frame ]);
    unfold document_consistent, step, handler, open_pdf, prev_page, next_page,
      zoom_in, zoom_out, display_page, render, on_mouse_press, on_mouse_drag,
      on_mouse_release, clear_selection, save_text;
    unfold_monad; simpl; repeat (break_match; simpl);
    intros H; simpl in *; try discriminate; try congruence;
    repeat match goal with
           | H : Some _ = Some _ |- _ => injection H as <-
           | H : _ /\ _ |- _ => destruct H
           end; simpl in *;
    repeat split; try congruence; try lia.
Qed.

Lemma reachable_document_consistent (a : App) :
  reachable a -> document_consistent a.
Proof.
  induction 1 as [a Hi|a ev _ IH].
  - destruct (init_initial_app a Hi) as [e [f ->]].
    unfold document_consistent. simpl. auto.
  - now apply step_document_consistent.
Qed.

(** Whatever the user does: without a document there is no bitmap, no
    selection and no page, and then each of the three OCR buttons only shows
    the warning to open a PDF; with a document the page count is the
    length of that document. *)
Theorem no_document_nothing_to_recognize (a : App) :
  reachable a ->
  (forall d, pdf_document a = Some d ->
     total_pages a = doc_len d /\ 0 <= doc_len d)
  /\ (pdf_document a = None ->
      current_image a = None /\ total_pages a = 0 /\ current_page a = 0
      /\ no_selection a
      /\ forall ev,
           In ev [ClickOcrCurrentPage; ClickOcrSelection;
                  ClickOcrEntireDocument] ->
           step a ev
           = set_trace
               (trace a ++ [ShowWarning (lit "Warning")
                              (lit "Please open a PDF first.")]) a).
Proof.
  intros Hr. pose proof (reachable_document_consistent a Hr) as C.
  unfold document_consistent in C. split.
  - intros d Hd. now rewrite Hd in C.
  - intros Hd. rewrite Hd in C. destruct C as [Hi [Ht [Hp [Hs1 Hs2]]]].
    unfold no_selection. repeat split; try assumption.
    intros ev [<-|[<-|[<-|[]]]];
      unfold step, handler, ocr_current_page, ocr_selection,
        ocr_entire_document, open_first; unfold_monad; simpl;
      rewrite ?Hi, ?Hd; reflexivity.
Qed.

End Documents.

(** ** Results and failures of the OCR operations *)

Section Recognition.
Context {W : World}.
Local Open Scope app_scope.

(** The answer of the adapter depends on the state only through the reader. *)
Lemma perform_ocr_outcome (image : Image) (name : pystr) (s s' : App) :
  easyocr_reader s = easyocr_reader s' ->
  fst (perform_ocr image name s) = fst (perform_ocr image name s').
Proof.
  unfold perform_ocr, _tesseract_ocr, _easyocr_ocr, _windows_ocr,
    get_easyocr_reader.
  unfold_monad. simpl. repeat (break_match; simpl); congruence.
Qed.

(** The adapter reaches at most one backend, once. *)
Lemma perform_ocr_calls (image : Image) (name : pystr) (s : App) :
  exists calls,
    trace (snd (perform_ocr image name s))
    = trace s ++ PerformOcr image name :: calls
    /\ forallb is_engine_call calls = true /\ (List.length calls <= 1)%nat.
Proof.
  destruct (in_dec (list_eq_dec N.eq_dec) name
              [TESSERACT; EASYOCR; WINDOWS_OCR]) as [Hin|Hout].
  - destruct (perform_ocr_known_trace image name s Hin) as [b Hb].
    exists [EngineCall b image]. rewrite Hb. unfold entered. simpl.
    rewrite <- app_assoc. auto.
  - exists []. rewrite (perform_ocr_unknown image name s Hout). simpl. auto.
Qed.

Lemma ocr_current_page_text (a : App) (image : Image) (text : pystr) :
  current_image a = Some image ->
  fst (perform_ocr image (selected_engine a) a) = Return text ->
  text_output (step a ClickOcrCurrentPage) = text.
Proof.
  intros Hi Ht.
  unfold step, handler, ocr_current_page, ocr_failed, display_ocr_result.
  unfold_monad. simpl. rewrite Hi. simpl.
  match goal with
  | |- context [perform_ocr image ?e ?s0] =>
      rewrite (perform_ocr_outcome image e a s0) in Ht by reflexivity;
      destruct (perform_ocr image e s0) as [[t|ex] s1]
  end; simpl in *; congruence.
Qed.





End Recognition.

(** ** Saving what was recognized *)

Section Saving.
Context {W : World}.
Local Open Scope app_scope.

Lemma lstrip_no_space (s : pystr) : starts_with_space s = false -> lstrip s = s.
Proof. destruct s as [|c s]; simpl; [reflexivity|]. now intros ->. Qed.

Lemma rstrip_no_space (s : pystr) : ends_with_space s = false -> rstrip s = s.
Proof.
  unfold ends_with_space, rstrip. intros H.
  rewrite (lstrip_no_space _ H). apply rev_involutive.
Qed.

Lemma strip_idempotent (s : pystr) : strip (strip s) = strip s.
Proof.
  destruct (strip_ends s) as [H1 H2]. unfold strip at 1.
  rewrite (lstrip_no_space _ H1). now apply rstrip_no_space.
Qed.

Lemma lstrip_app_kept (s t : pystr) :
  lstrip s <> [] -> lstrip (s ++ t) = lstrip s ++ t.
Proof.
  induction s as [|c s IH]; simpl; [congruence|].
  destruct (isspace c); [exact IH|reflexivity].
Qed.

Lemma lstrip_app_spaces (s t : pystr) :
  lstrip s = [] -> lstrip (s ++ t) = lstrip t.
Proof.
  induction s as [|c s IH]; simpl; [reflexivity|].
  destruct (isspace c); [exact IH|discriminate].
Qed.

(** The newline that Tk appends to the pane does not survive. *)
Lemma strip_newline (s : pystr) : strip (s ++ [NL]) = strip s.
Proof.
  unfold strip. destruct (lstrip s) as [|c r] eqn:E.
  - rewrite lstrip_app_spaces by exact E. reflexivity.
  - rewrite lstrip_app_kept by (rewrite E; discriminate). rewrite E.
    unfold rstrip. rewrite rev_app_distr. reflexivity.
Qed.

Lemma save_text_trace (s : App) (file_path : pystr) :
  trace (step s (ClickSaveText file_path))
  = trace s
      ++ match strip (text_output s) with
         | [] => [ShowWarning (lit "Warning") (lit "No text to save.")]
         | _ :: _ =>
             AskSaveAsFilename
               :: match file_path with
                  | [] => []
                  | _ :: _ =>
                      WriteFile file_path (strip (text_output s))
                        :: save_failed
                             (write_file file_path (strip (text_output s)))
                  end
         end.
Proof.
  unfold step, handler, save_text, text_output_get. unfold_monad. simpl.
  rewrite strip_newline.
  destruct (strip (text_output s)) as [|c t]; simpl; [reflexivity|].
  destruct file_path as [|q p]; simpl; [reflexivity|].
  destruct (write_file (q :: p) (c :: t)); simpl;
    rewrite <- !app_assoc; reflexivity.
Qed.

(** "OCR Current Page" followed by "Save Text": what is written to the
    chosen file is the recognized text without its leading and trailing
    whitespace, which stripping again would not change; a recognized text
    of whitespace only is not saved at all. *)
Theorem ocr_then_save_writes_recognized_text (a : App) (image : Image)
    (text file_path : pystr) :
  current_image a = Some image ->
  fst (perform_ocr image (selected_engine a) a) = Return text ->
  file_path <> [] ->
  let recognized := step a ClickOcrCurrentPage in
  strip (strip text) = strip text
  /\ (strip text <> [] ->
      trace (run_events a [ClickOcrCurrentPage; ClickSaveText file_path])
      = trace recognized
          ++ [AskSaveAsFilename; WriteFile file_path (strip text)]
          ++ save_failed (write_file file_path (strip text)))
  /\ (strip text = [] ->
      trace (run_events a [ClickOcrCurrentPage; ClickSaveText file_path])
      = trace recognized
          ++ [ShowWarning (lit "Warning") (lit "No text to save.")]).
Proof.
  intros Hi Ht Hp recognized.
  assert (T : text_output recognized = text)
    by exact (ocr_current_page_text a image text Hi Ht).
  split; [apply strip_idempotent|].
  unfold run_events. simpl. fold recognized.
  rewrite save_text_trace, T.
  split; intros H.
  - destruct (strip text) as [|c t]; [congruence|].
    destruct file_path as [|q p]; [congruence|]. reflexivity.
  - rewrite H. reflexivity.
Qed.


End Saving.

(** ** Opening, in full *)

Section Opening.
Context {W : World}.
Local Open Scope app_scope.


End Opening.

(** ** The crop box *)

Section Cropping.
Context {W : World}.
Local Open Scope app_scope.

Lemma int_trunc_monotone (x y : Qc) :
  (x <= y)%Qc -> int_trunc x <= int_trunc y.
Proof.
  intros H. unfold Qcle, Qle in H.
  pose proof (int_trunc_toward_zero x) as Tx.
  pose proof (int_trunc_toward_zero y) as Ty.
  cbv zeta in Tx, Ty.
  set (tx := int_trunc x) in *. set (ty := int_trunc y) in *.
  set (nx := Qnum x) in *. set (ny := Qnum y) in *.
  assert (Dx : 0 < Z.pos (Qden x)) by lia.
  assert (Dy : 0 < Z.pos (Qden y)) by lia.
  set (dx := Z.pos (Qden x)) in *. set (dy := Z.pos (Qden y)) in *.
  destruct Tx as [Tx1 Tx2], Ty as [Ty1 Ty2].
  destruct (Z.le_gt_cases tx ty) as [L|G]; [exact L|exfalso].
  destruct (Z.le_gt_cases 0 nx) as [Px|Nx], (Z.le_gt_cases 0 ny) as [Py|Ny].
  - specialize (Tx1 Px). specialize (Ty1 Py).
    assert (ny * dx < (ty + 1) * dy * dx) by nia.
    assert (tx * dx * dy <= nx * dy) by nia.
    assert ((ty + 1) * dy * dx <= tx * dx * dy) by nia. lia.
  - nia.
  - specialize (Tx2 ltac:(lia)). specialize (Ty1 Py).
    assert (tx <= 0) by nia. assert (0 <= ty) by nia. lia.
  - specialize (Tx2 ltac:(lia)). specialize (Ty2 ltac:(lia)).
    assert (ny * dx <= ty * dy * dx) by nia.
    assert ((tx - 1) * dx * dy < nx * dy) by nia.
    assert (ty * dy * dx <= (tx - 1) * dx * dy) by nia. lia.
Qed.

Lemma gesture_state (a : App) (img : Image) (p r : Qc * Qc)
    (path : list (Qc * Qc)) :
  current_image a = Some img ->
  run_events a (gesture p path r)
  = set_status_var
      (selection_status (normalize (fst p) (snd p) (fst r) (snd r)))
      (set_selection_rect
         (Some (normalize (fst p) (snd p) (fst r) (snd r)))
         (set_selection_start (Some (fst p, snd p)) a)).
Proof.
  intros Hi. unfold gesture, run_events. simpl. rewrite fold_left_app.
  fold (run_events (step a (MousePress (fst p) (snd p)))
          (map (fun q => MouseDrag (fst q) (snd q)) path)).
  rewrite drags_nothing. simpl.
  unfold step, handler, on_mouse_press, on_mouse_release.
  unfold_monad. simpl. rewrite Hi. reflexivity.
Qed.

Lemma ocr_selection_crops (s : App) (image : Image) (x1 y1 x2 y2 : Qc) :
  current_image s = Some image ->
  selection_rect s = Some (x1, y1, x2, y2) ->
  exists rest,
    trace (step s ClickOcrSelection)
    = trace s
        ++ Crop image (int_trunc x1) (int_trunc y1) (int_trunc x2)
             (int_trunc y2)
        :: PerformOcr
             (crop image (int_trunc x1) (int_trunc y1) (int_trunc x2)
                (int_trunc y2)) (selected_engine s)
        :: rest.
Proof.
  intros Hi Hr.
  unfold step, handler, ocr_selection, ocr_failed, display_ocr_result.
  unfold_monad. simpl. rewrite Hi. simpl. rewrite Hr. simpl.
  match goal with
  | |- context [perform_ocr ?i ?e ?s0] =>
      destruct (perform_ocr_calls i e s0) as [calls [T _]];
      destruct (perform_ocr i e s0) as [[t|ex] s1]
  end; simpl in T; simpl; rewrite T; eexists;
    rewrite <- !app_assoc; simpl; reflexivity.
Qed.

(** After any selection gesture on a displayed bitmap, "OCR Selection"
    crops to a box whose left bound is not beyond the right one and whose
    upper bound is not below the lower one (the truncation keeps the order
    of the normalized corners), and recognizes exactly that crop. *)
Theorem selection_crop_box_is_ordered (a : App) (image : Image)
    (p1 p2 : Qc * Qc) (path : list (Qc * Qc)) :
  current_image a = Some image ->
  let selected := run_events a (gesture p1 path p2) in
  exists (left upper right lower : Z) (rest : list Effect),
    trace (step selected ClickOcrSelection)
    = trace a
        ++ Crop image left upper right lower
        :: PerformOcr (crop image left upper right lower) (selected_engine a)
        :: rest
    /\ left <= right /\ upper <= lower
    /\ left = int_trunc (qmin (fst p1) (fst p2))
    /\ right = int_trunc (qmax (fst p1) (fst p2))
    /\ upper = int_trunc (qmin (snd p1) (snd p2))
    /\ lower = int_trunc (qmax (snd p1) (snd p2)).
Proof.
  intros Hi selected.
  assert (E := gesture_state a image p1 p2 path Hi). fold selected in E.
  destruct (ocr_selection_crops selected image
              (qmin (fst p1) (fst p2)) (qmin (snd p1) (snd p2))
              (qmax (fst p1) (fst p2)) (qmax (snd p1) (snd p2)))
    as [rest T]; [rewrite E; exact Hi|rewrite E; reflexivity|].
  do 4 eexists. exists rest. split.
  - rewrite T. rewrite E at 1 2. reflexivity.
  - repeat split; try reflexivity;
      apply int_trunc_monotone, qmin_le_qmax.
Qed.

End Cropping.

(** ** The properties on the concrete worlds *)

(** C3, as stated, fails: an EasyOCR whose import raises an OSError makes
    [get_available_engines] raise that error instead of returning a list
    without the engine. *)
Lemma get_available_engines_raises_other_errors :
  @get_available_engines Demo.broken_world
  = Raise (mkExn OSError (lit "cannot load library")).
Proof. reflexivity. Qed.

Lemma get_available_engines_import_error_only_witness :
  @get_available_engines Demo.world = Return [TESSERACT; WINDOWS_OCR].
Proof.
  exact (proj1 (@get_available_engines_import_error_only Demo.world)
           eq_refl eq_refl).
Defined.


Lemma selection_normalized_symmetric_witness :
  exists x1 y1 x2 y2 : Qc,
    selection_rect
      (run_events Demo.app1
         (gesture (Q2Qc (9 # 2), Q2Qc 1) [(Q2Qc 3, Q2Qc 2)]
            (Q2Qc 2, Q2Qc (7 # 3))))
    = Some (x1, y1, x2, y2)
    /\ (x1 <= x2)%Qc /\ (y1 <= y2)%Qc
    /\ selection_rect
         (run_events Demo.app1
            (gesture (Q2Qc 2, Q2Qc (7 # 3)) [] (Q2Qc (9 # 2), Q2Qc 1)))
       = Some (x1, y1, x2, y2).
Proof.
  apply (selection_normalized_symmetric Demo.app1 [0]). reflexivity.
Defined.


Lemma zoom_stays_on_levels_witness :
  exists k : nat, (k < 12)%nat /\ zoom_level Demo.app1 = level k.
Proof.
  destruct (proj2 (@zoom_stays_on_levels Demo.world) Demo.app1) as [k [Hk [Hz _]]].
  - apply reachable_step. apply reachable_init. reflexivity.
  - exists k. split; assumption.
Defined.



Lemma reachable_page_valid_witness : page_valid Demo.selected.
Proof.
  apply reachable_page_valid. unfold Demo.selected, Demo.app1, run_events.
  simpl. do 3 apply reachable_step. apply reachable_init. reflexivity.
Defined.

(** *** Further properties, on the concrete worlds *)

Lemma demo_app1_reachable : reachable Demo.app1.
Proof. apply reachable_step, reachable_init. reflexivity. Qed.

Lemma only_save_text_writes_files_witness :
  exists file_path, ClickSaveText (lit "out.txt") = ClickSaveText file_path.
Proof.
  apply (@only_save_text_writes_files Demo.world Demo.typed
           (ClickSaveText (lit "out.txt"))
           [AskSaveAsFilename; WriteFile (lit "out.txt") (lit "hello")]).
  - vm_compute. reflexivity.
  - left. reflexivity.
Defined.

Lemma only_ocr_buttons_run_ocr_witness :
  ClickOcrCurrentPage = ClickOcrCurrentPage
  \/ ClickOcrCurrentPage = ClickOcrSelection
  \/ ClickOcrCurrentPage = ClickOcrEntireDocument.
Proof.
  apply (@only_ocr_buttons_run_ocr Demo.world Demo.app1 ClickOcrCurrentPage
           [@PerformOcr Demo.world ([0] : Demo.bitmap) TESSERACT;
            @EngineCall Demo.world TesseractBackend ([0] : Demo.bitmap)]);
    vm_compute; reflexivity.
Defined.


Lemma registry_engines_are_supported_witness :
  NoDup [TESSERACT; WINDOWS_OCR]
  /\ backend_of WINDOWS_OCR <> None.
Proof.
  destruct (@registry_engines_are_supported Demo.world
              [TESSERACT; WINDOWS_OCR] eq_refl) as [_ [N [_ K]]].
  split; [exact N|]. apply K. right. left. reflexivity.
Defined.

Lemma selected_engine_is_supported_witness :
  In (selected_engine Demo.app1) (available_engines Demo.app1).
Proof.
  exact (proj1 (proj2 (proj2 (@selected_engine_is_supported Demo.world)
                         Demo.app1 demo_app1_reachable))).
Defined.


Lemma zoom_label_shows_quarters_witness :
  exists k : nat,
    update_zoom_label Demo.app1
    = Some (str_int (25 * (Z.of_nat k + 1)) ++ lit "%").
Proof.
  destruct (zoom_label_shows_quarters Demo.app1 demo_app1_reachable)
    as [k [_ [_ H]]].
  exists k. exact H.
Defined.

Lemma zoom_buttons_are_inverse_witness :
  zoom_level (step Demo.app1 ClickPrev) = zoom_level Demo.app1.
Proof.
  destruct (zoom_buttons_are_inverse Demo.app1 demo_app1_reachable)
    as [k [_ [_ [_ [_ [_ [_ [_ [_ [H _]]]]]]]]]].
  exact H.
Defined.

Lemma easyocr_reader_is_kept_witness :
  easyocr_reader (snd (@_easyocr_ocr Flaky.world [0] Flaky.app1)) = false.
Proof.
  exact (proj2 (proj1 (@easyocr_reader_is_kept Flaky.world [0]
                         Flaky.app1) eq_refl
                  (mkExn RuntimeError (lit "model download failed"))
                  (or_intror (conj eq_refl eq_refl)))).
Defined.

Lemma no_document_nothing_to_recognize_witness :
  step Demo.app0 ClickOcrCurrentPage
  = set_trace
      (trace Demo.app0
         ++ [ShowWarning (lit "Warning") (lit "Please open a PDF first.")])
      Demo.app0.
Proof.
  destruct (no_document_nothing_to_recognize Demo.app0) as [_ H].
  - apply reachable_init. reflexivity.
  - destruct (H eq_refl) as [_ [_ [_ [_ K]]]]. apply K. left. reflexivity.
Defined.



Lemma ocr_then_save_writes_recognized_text_witness :
  trace (run_events Demo.app1
           [ClickOcrCurrentPage; ClickSaveText (lit "out.txt")])
  = trace (step Demo.app1 ClickOcrCurrentPage)
      ++ [AskSaveAsFilename; WriteFile (lit "out.txt") (lit "text 0")].
Proof.
  destruct (ocr_then_save_writes_recognized_text Demo.app1 [0]
              (lit "text 0") (lit "out.txt") eq_refl eq_refl)
    as [_ [H _]].
  - discriminate.
  - apply H. discriminate.
Defined.



Lemma selection_crop_box_is_ordered_witness :
  exists (left upper right lower : Z) (rest : list Effect),
    trace (step (run_events Demo.app1
                   (gesture (Q2Qc (9 # 2), Q2Qc 1) []
                      (Q2Qc 2, Q2Qc (7 # 3)))) ClickOcrSelection)
    = trace Demo.app1
        ++ Crop (W := Demo.world) [0] left upper right lower
        :: PerformOcr (@crop Demo.world [0] left upper right lower) TESSERACT :: rest
    /\ left <= right /\ upper <= lower.
Proof.
  destruct (selection_crop_box_is_ordered Demo.app1 [0]
              (Q2Qc (9 # 2), Q2Qc 1) (Q2Qc 2, Q2Qc (7 # 3)) [] eq_refl)
    as [l [u [r [b [rest [T [H1 [H2 _]]]]]]]].
  exists l, u, r, b, rest. split; [exact T|split; assumption].
Defined.
